(** * monorepo-lib: the interceptor chain and the dynamic controller registry

    A shallow embedding of [libs/core/interceptor] (chain builder, universal
    context, interceptor error, bridge helper) and of
    [libs/core/adapter-template] (reflection-driven [RegisterRouter]),
    followed by the properties the specification states about them.

    Go functions are embedded as functions of an explicit world [W] that
    either return a value or panic; function values, interface values and
    pointers keep their [nil] (as [None]). *)

From Stdlib Require Import ZArith List String Ascii Bool Lia.
From Stdlib Require DecimalString.
From Equations Require Import Equations.
Import ListNotations.

Set Implicit Arguments.
Set Warnings "-register-all,-notation-for-abbreviation".
Local Open Scope string_scope.
Local Open Scope list_scope.

(* ===================================================================== *)
(** ** The Go runtime, as far as the two packages use it                  *)
(* ===================================================================== *)

Module Go.

(** Values of the [error] interface, by dynamic type. [*errors.errorString]
    (from [errors.New] and [fmt.Errorf] without [%w]), an error of a type
    declared outside the two packages whose values can be compared with
    [==], an error of a type declared outside them that is not comparable
    (a slice, a map, a struct with such a field:
    [type MultiError []string]), and the interceptor
    package's own [*InterceptorError] with its two fields. The types from
    outside have neither an [Is] nor an [Unwrap] method. The nil interface
    is [None]. *)
Inductive error_value : Type :=
| errorString (s : string)
| foreignError (typ : string) (msg : string)
| uncomparableError (typ : string) (msg : string)
| InterceptorErrorRef (InterceptorName : string) (Err : option error_value).

Definition error : Type := option error_value.

(** [reflect.TypeOf(e).Comparable()] *)
Definition comparable_value (e : error_value) : bool :=
  match e with
  | uncomparableError _ _ => false
  | _ => true
  end.


(** Same dynamic type and same value. A pointer is compared through what
    it points to, which agrees with the comparison of addresses whenever a
    value is compared with itself, the only use made of it below. *)
Fixpoint error_value_eqb (a b : error_value) {struct a} : bool :=
  match a, b with
  | errorString s, errorString t => String.eqb s t
  | foreignError ty s, foreignError ty' t => String.eqb ty ty' && String.eqb s t
  | uncomparableError ty s, uncomparableError ty' t =>
      String.eqb ty ty' && String.eqb s t
  | InterceptorErrorRef n e, InterceptorErrorRef m f =>
      String.eqb n m &&
      match e, f with
      | Some e', Some f' => error_value_eqb e' f'
      | None, None => true
      | _, _ => false
      end
  | _, _ => false
  end.



Definition error_eqb (a b : error) : bool :=
  match a, b with
  | Some x, Some y => error_value_eqb x y
  | None, None => true
  | _, _ => false
  end.

(** [errors.Is(err, target)]: compare when the type of the target is
    comparable (never otherwise), then follow [Unwrap] (only
    [*InterceptorError] has one here, and no type has an [Is] method). *)
Fixpoint errors_Is_value (e target : error_value) {struct e} : bool :=
  (comparable_value target && error_value_eqb e target) ||
  match e with
  | InterceptorErrorRef _ (Some inner) => errors_Is_value inner target
  | _ => false
  end.

Definition errors_Is (err target : error) : bool :=
  match err, target with
  | Some e, Some t => errors_Is_value e t
  | _, _ => error_eqb err target
  end.

(** [context.Context] values: [context.Background()], [context.TODO()] and
    contexts derived from a parent ([WithValue], [WithCancel], ...). *)
Inductive context_impl : Type :=
| backgroundCtx
| todoCtx
| derivedCtx (parent : context_impl) (label : string).

Definition Context : Type := option context_impl.
Definition Background : Context := Some backgroundCtx.

Section Runtime.
Context {any W : Type}.

(** What [recover()] yields for a panicking call: a runtime error or the
    argument of [panic]. From Go 1.21 on it is never nil ([panic(nil)]
    is delivered as a [*runtime.PanicNilError]). *)
Inductive PanicValue : Type :=
| RuntimeError (msg : string)
| PanicWith (v : any).

Inductive Outcome (A : Type) : Type :=
| Returned (a : A) (w : W)
| Panicked (p : PanicValue) (w : W).
Arguments Returned {A} a w.
Arguments Panicked {A} p w.

Definition Comp (A : Type) : Type := W -> Outcome A.

Definition ret {A} (a : A) : Comp A := fun w => Returned a w.

Definition bind {A B} (c : Comp A) (k : A -> Comp B) : Comp B :=
  fun w =>
    match c w with
    | Returned a w' => k a w'
    | Panicked p w' => Panicked p w'
    end.

Definition panic {A} (p : PanicValue) : Comp A := fun w => Panicked p w.

Definition nilDereference : PanicValue :=
  RuntimeError "invalid memory address or nil pointer dereference".

(** [func() { defer func() { r := recover(); ... }(); c }()]: the call
    returns normally either way, with what [recover()] saw. *)
Definition recovering {A} (c : Comp A) : Comp (option PanicValue) :=
  fun w =>
    match c w with
    | Returned _ w' => Returned None w'
    | Panicked p w' => Returned (Some p) w'
    end.

(** A computation that also lists, in order, the calls it makes to the
    collaborators it was handed (ghost state: the callee cannot see or
    change the list). *)
Definition Traced (E A : Type) : Type := W -> list E * Outcome A.

Definition tret {E A} (a : A) : Traced E A := fun w => ([], Returned a w).

Definition tbind {E A B} (c : Traced E A) (k : A -> Traced E B) : Traced E B :=
  fun w =>
    match c w with
    | (t, Returned a w') => let (t', o) := k a w' in (t ++ t', o)
    | (t, Panicked p w') => (t, Panicked p w')
    end.

Definition silent {E A} (c : Comp A) : Traced E A := fun w => ([], c w).

(** One call to a collaborator, listed with what the caller saw of it. *)
Definition observed {E A} (e : Outcome A -> E) (c : Comp A) : Traced E A :=
  fun w => let o := c w in ([e o], o).
End Runtime.

Arguments PanicValue : clear implicits.
Arguments Outcome : clear implicits.
Arguments Comp : clear implicits.
Arguments Traced : clear implicits.
Arguments Returned {any W A} a w.
Arguments Panicked {any W A} p w.

(** A value computed without touching the world: it is there, or the
    computation panicked (index out of range). *)
Inductive Built (A : Type) : Type :=
| Done (a : A)
| IndexOutOfRange (i : Z) (len : nat).
Arguments IndexOutOfRange {A} i len.

End Go.

Declare Scope go_scope.
Delimit Scope go_scope with go.
Notation "x <- c ;; k" := (Go.bind c (fun x => k))
  (at level 61, c at next level, right associativity) : go_scope.
Notation "c ;;; k" := (Go.bind c (fun _ => k))
  (at level 61, right associativity) : go_scope.

(* ===================================================================== *)
(** ** package interceptor                                                *)
(* ===================================================================== *)

Module interceptor.
Import Go.

Section Generic.
Context {M any W : Type}.

(** context.go *)
Record UniversalContext : Type := {
  Context_ : Context;
  Protocol : string;
  Method : string;
  Meta : M
}.

(** A [*UniversalContext[M]]; [None] is the nil pointer. The pointer is
    handed down the chain as a value: an interceptor that changes the
    context passes the changed one to next. *)
Definition UniversalContextPtr : Type := option UniversalContext.

Definition NewUniversalContext (ctx : Context) (protocol method : string)
    (meta : M) : UniversalContextPtr :=
  let ctx := match ctx with None => Background | Some _ => ctx end in
  Some {| Context_ := ctx; Protocol := protocol; Method := method; Meta := meta |}.

(** types.go: a func value, [None] when nil. *)
Definition NextFunc : Type :=
  option (UniversalContextPtr -> Comp any W (any * error)).

(** [next(ctx)] *)
Definition call (next : NextFunc) (ctx : UniversalContextPtr)
    : Comp any W (any * error) :=
  match next with
  | Some f => f ctx
  | None => panic nilDereference
  end.

(** The [Interceptor] interface: its one method; the interface value is
    [None] when nil. *)
Record InterceptorImpl : Type := {
  Intercept : UniversalContextPtr -> NextFunc -> Comp any W (any * error)
}.

Definition Interceptor : Type := option InterceptorImpl.

(** [i.Intercept(ctx, next)] on an interface value. *)
Definition callIntercept (i : Interceptor) (ctx : UniversalContextPtr)
    (next : NextFunc) : Comp any W (any * error) :=
  match i with
  | Some impl => Intercept impl ctx next
  | None => panic nilDereference
  end.

(** [InterceptorFunc] and its [Intercept] method. *)
Definition InterceptorFunc : Type :=
  UniversalContextPtr -> NextFunc -> Comp any W (any * error).

Definition InterceptorFunc_Intercept (f : InterceptorFunc) : InterceptorImpl :=
  {| Intercept := fun ctx next => f ctx next |}.

(** The closure one loop iteration of [Chain] builds. *)
Definition closure (currentInterceptor : Interceptor) (nextFunc : NextFunc)
    : NextFunc :=
  Some (fun ctx => callIntercept currentInterceptor ctx nextFunc).

(** [for i := len(interceptors) - 1; i >= 0; i-- { ... }] *)
Equations Chain_loop (interceptors : list Interceptor) (i : Z)
    (handler : NextFunc) : Built NextFunc by wf (Z.to_nat (i + 1)) lt :=
  Chain_loop interceptors i handler with Z_le_dec 0 i => {
    | left _ with nth_error interceptors (Z.to_nat i) => {
        | Some currentInterceptor =>
            let nextFunc := handler in
            Chain_loop interceptors (i - 1) (closure currentInterceptor nextFunc)
        | None => IndexOutOfRange i (List.length interceptors) }
    | right _ => Done handler }.
Next Obligation. lia. Qed.

Definition Chain (handler : NextFunc) (interceptors : list Interceptor)
    : Built NextFunc :=
  if Nat.eqb (List.length interceptors) 0 then Done handler
  else Chain_loop interceptors (Z.of_nat (List.length interceptors) - 1) handler.

(** error.go *)
Record InterceptorError : Type := {
  InterceptorName : string;
  Err : error
}.

(** [&InterceptorError{...}] held in an [error] interface. *)
Definition addressOf (e : InterceptorError) : error :=
  Some (InterceptorErrorRef (InterceptorName e) (Err e)).

(** [%v] of an error value, as [fmt.Sprintf] prints it. *)
Fixpoint fmt_v_error_value (e : error_value) : string :=
  match e with
  | errorString s => s
  | foreignError _ msg => msg
  | uncomparableError _ msg => msg
  | InterceptorErrorRef name inner =>
      ("interceptor[" ++ name ++ "]: " ++
       match inner with
       | Some e' => fmt_v_error_value e'
       | None => "<nil>"
       end)%string
  end.

Definition fmt_v_error (e : error) : string :=
  match e with Some e' => fmt_v_error_value e' | None => "<nil>" end.

Definition Error (e : InterceptorError) : string :=
  ("interceptor[" ++ InterceptorName e ++ "]: " ++ fmt_v_error (Err e))%string.

Definition Unwrap (e : InterceptorError) : error := Err e.

Definition NewInterceptorError (name : string) (err : error) : error :=
  match err with
  | None => None
  | Some _ => addressOf {| InterceptorName := name; Err := err |}
  end.

(** The [*InterceptorError] behind an error value, if that is its
    dynamic type (a type assertion to the pointer type). *)
Definition asInterceptorError (err : error) : option InterceptorError :=
  match err with
  | Some (InterceptorErrorRef name inner) =>
      Some {| InterceptorName := name; Err := inner |}
  | _ => None
  end.

(** bridge.go *)
Section Bridging.
Context {NativeCtx : Type}.

Record BridgeImpl : Type := {
  ExtractMeta : NativeCtx -> Comp any W M;
  CreateUniversalContext : NativeCtx -> Comp any W UniversalContextPtr;
  OnSuccess : NativeCtx -> any -> Comp any W unit;
  OnError : NativeCtx -> error -> Comp any W unit
}.

(** The interface value; [None] when nil. *)
Definition Bridge : Type := option BridgeImpl.

Definition callCreateUniversalContext (b : Bridge) (nativeCtx : NativeCtx)
    : Comp any W UniversalContextPtr :=
  match b with
  | Some impl => CreateUniversalContext impl nativeCtx
  | None => panic nilDereference
  end.

Definition callOnSuccess (b : Bridge) (nativeCtx : NativeCtx) (result : any)
    : Comp any W unit :=
  match b with
  | Some impl => OnSuccess impl nativeCtx result
  | None => panic nilDereference
  end.

Definition callOnError (b : Bridge) (nativeCtx : NativeCtx) (err : error)
    : Comp any W unit :=
  match b with
  | Some impl => OnError impl nativeCtx err
  | None => panic nilDereference
  end.

(** [BaseBridge]: every func field may be nil. *)
Record BaseBridge : Type := {
  BaseBridge_Protocol : string;
  ExtractMetaFn : option (NativeCtx -> Comp any W M);
  GetMethodFn : option (NativeCtx -> Comp any W string);
  OnSuccessFn : option (NativeCtx -> any -> Comp any W unit);
  OnErrorFn : option (NativeCtx -> error -> Comp any W unit)
}.

(** [zero] is the zero value of [M]. *)
Definition BaseBridge_ExtractMeta (zero : M) (b : BaseBridge)
    (nativeCtx : NativeCtx) : Comp any W M :=
  match ExtractMetaFn b with
  | Some f => f nativeCtx
  | None => ret zero
  end.

Definition BaseBridge_CreateUniversalContext (zero : M) (b : BaseBridge)
    (nativeCtx : NativeCtx) : Comp any W UniversalContextPtr :=
  (meta <- BaseBridge_ExtractMeta zero b nativeCtx ;;
   method <- match GetMethodFn b with
             | Some f => f nativeCtx
             | None => ret ""
             end ;;
   ret (NewUniversalContext None (BaseBridge_Protocol b) method meta))%go.

Definition BaseBridge_OnSuccess (b : BaseBridge) (nativeCtx : NativeCtx)
    (result : any) : Comp any W unit :=
  match OnSuccessFn b with
  | Some f => f nativeCtx result
  | None => ret tt
  end.

Definition BaseBridge_OnError (b : BaseBridge) (nativeCtx : NativeCtx)
    (err : error) : Comp any W unit :=
  match OnErrorFn b with
  | Some f => f nativeCtx err
  | None => ret tt
  end.

(** [*BaseBridge] as a [Bridge]. *)
Definition BaseBridge_asBridge (zero : M) (b : BaseBridge) : Bridge :=
  Some {| ExtractMeta := BaseBridge_ExtractMeta zero b;
          CreateUniversalContext := BaseBridge_CreateUniversalContext zero b;
          OnSuccess := BaseBridge_OnSuccess b;
          OnError := BaseBridge_OnError b |}.

Record InterceptorResolverImpl : Type := {
  Resolve : UniversalContextPtr -> string -> Comp any W (list Interceptor)
}.

Definition InterceptorResolver : Type := option InterceptorResolverImpl.

Definition callResolve (r : InterceptorResolver) (ctx : UniversalContextPtr)
    (handlerKey : string) : Comp any W (list Interceptor) :=
  match r with
  | Some impl => Resolve impl ctx handlerKey
  | None => panic nilDereference
  end.

Record SimpleResolver : Type := { Interceptors : list Interceptor }.

Definition SimpleResolver_Resolve (s : SimpleResolver)
    (ctx : UniversalContextPtr) (handlerKey : string)
    : Comp any W (list Interceptor) :=
  ret (Interceptors s).

Definition SimpleResolver_asResolver (s : SimpleResolver)
    : InterceptorResolver :=
  Some {| Resolve := SimpleResolver_Resolve s |}.

(** The hook calls [ExecutePipeline] makes, with their arguments. *)
Inductive HookCall : Type :=
| CallOnSuccess (nativeCtx : NativeCtx) (result : any)
| CallOnError (nativeCtx : NativeCtx) (err : error).

Definition ExecutePipeline (bridge : Bridge) (resolver : InterceptorResolver)
    (nativeCtx : NativeCtx) (handlerKey : string)
    (businessHandler : NextFunc) : Traced any W HookCall (any * error) :=
  tbind (silent (callCreateUniversalContext bridge nativeCtx)) (fun uCtx =>
  tbind (silent (callResolve resolver uCtx handlerKey)) (fun interceptors =>
  match Chain businessHandler interceptors with
  | IndexOutOfRange _ _ =>
      silent (panic (RuntimeError "index out of range"))
  | Done pipeline =>
      tbind (silent (call pipeline uCtx)) (fun '(result, err) =>
      tbind (match err with
             | Some _ =>
                 observed (fun _ => CallOnError nativeCtx err)
                          (callOnError bridge nativeCtx err)
             | None =>
                 observed (fun _ => CallOnSuccess nativeCtx result)
                          (callOnSuccess bridge nativeCtx result)
             end) (fun _ =>
      tret (result, err)))
  end)).
End Bridging.

End Generic.

Arguments UniversalContext : clear implicits.
Arguments UniversalContextPtr : clear implicits.
Arguments NextFunc : clear implicits.
Arguments InterceptorImpl : clear implicits.
Arguments Interceptor : clear implicits.
Arguments InterceptorFunc : clear implicits.
Arguments Bridge : clear implicits.
Arguments BridgeImpl : clear implicits.
Arguments BaseBridge : clear implicits.
Arguments InterceptorResolver : clear implicits.
Arguments InterceptorResolverImpl : clear implicits.
Arguments SimpleResolver : clear implicits.
Arguments HookCall : clear implicits.

End interceptor.

(* ===================================================================== *)
(** ** package adaptertemplate                                            *)
(* ===================================================================== *)

Module adaptertemplate.
Import Go.

(** [reflect.Type] values: the interface type [context.Context] and every
    other type, by name. *)
Inductive GoType : Type :=
| contextContext
| namedType (name : string).

Definition GoType_eqb (a b : GoType) : bool :=
  match a, b with
  | contextContext, contextContext => true
  | namedType s, namedType t => String.eqb s t
  | _, _ => false
  end.

(** The [reflect.Type] of a method value (the receiver is bound). *)
Record FuncType : Type := {
  params : list GoType;
  results : list GoType
}.

Definition NumIn (t : FuncType) : Z := Z.of_nat (List.length (params t)).
Definition NumOut (t : FuncType) : Z := Z.of_nat (List.length (results t)).
Definition In_ (t : FuncType) (i : Z) : option GoType :=
  if (i <? 0)%Z then None else nth_error (params t) (Z.to_nat i).

(** [In(0)] is only reached when [NumIn() == 1], so it is in range. *)
Definition isValidDynamicMethod (methodType : FuncType) : bool :=
  if negb (NumIn methodType =? 1)%Z then false
  else if negb (NumOut methodType =? 0)%Z then false
  else
    let ctxType := contextContext in
    match In_ methodType 0 with
    | Some t => if negb (GoType_eqb t ctxType) then false else true
    | None => false
    end.

Section Dynamic.
Context {any W : Type}.

(** A method of the controller's dynamic type, as a [reflect.Method]
    describes it: its name, the package path that qualifies the name when
    it is not exported (empty for an exported name, that is, one whose
    first rune is a Unicode upper-case letter), its type, and what a call
    with one context argument does. *)
Record Method : Type := {
  Name : string;
  PkgPath : string;
  Type_ : FuncType;
  Func : Context -> Comp any W unit
}.

(** [reflect.Method.IsExported] *)
Definition IsExported (m : Method) : bool := String.eqb (PkgPath m) "".

(** A non-nil [ICoreController]: the name and the method set of its
    dynamic type, sorted by name as [reflect] lists them. *)
Record Controller : Type := {
  TypeString : string;
  methodSet : list Method
}.

Definition ICoreController : Type := option Controller.

(** [reflect.ValueOf(controller)] shows the exported methods only. *)
Definition reflectMethods (value : Controller) : list Method :=
  filter IsExported (methodSet value).

Definition NumMethod (value : Controller) : Z :=
  Z.of_nat (List.length (reflectMethods value)).

Definition reflectMethod (value : Controller) (i : Z) : option Method :=
  if (i <? 0)%Z then None else nth_error (reflectMethods value) (Z.to_nat i).

(** One entry per method the registry calls: which, and whether the
    call panicked. *)
Record CallRecord : Type := {
  callee : string;
  panicked : bool
}.

Definition recordCall (methodName : string)
    (o : Outcome any W (option (PanicValue any))) : CallRecord :=
  {| callee := methodName;
     panicked := match o with
                 | Returned (Some _) _ => true
                 | _ => false
                 end |}.

Variable fmt_v : PanicValue any -> string.

(** [fmt.Errorf("method %s.%s panicked: %v", ...)] *)
Definition panicError (typeString methodName : string) (r : PanicValue any)
    : error :=
  Some (errorString ("method " ++ typeString ++ "." ++ methodName ++
                     " panicked: " ++ fmt_v r)%string).

(** The body of the [for] loop of [RegisterRouter], from index [i] on. *)
Equations RegisterRouter_loop (value : Controller) (ctx : Context) (i : Z)
    : Traced any W CallRecord error
    by wf (Z.to_nat (NumMethod value - i)) lt :=
  RegisterRouter_loop value ctx i with Z_lt_dec i (NumMethod value) => {
    | right _ => tret None
    | left _ with reflectMethod value i => {
        | None => silent (panic (RuntimeError "reflect: Method index out of range"))
        | Some method with isValidDynamicMethod (Type_ method) => {
            | false => RegisterRouter_loop value ctx (i + 1)
            | true =>
                let methodName := Name method in
                tbind (observed (recordCall methodName)
                                (recovering (Func method ctx)))
                  (fun r =>
                     match r with
                     | Some r =>
                         tret (panicError (TypeString value) methodName r)
                     | None => RegisterRouter_loop value ctx (i + 1)
                     end) } } }.
Next Obligation. lia. Qed.
Next Obligation. lia. Qed.

Definition RegisterRouter (controller : ICoreController) (ctx : Context)
    : Traced any W CallRecord error :=
  match controller with
  | None => tret None
  | Some value =>
      let ctx := match ctx with None => Background | Some _ => ctx end in
      RegisterRouter_loop value ctx 0
  end.

(** [%d] of a loop index. *)
Definition fmt_d (i : nat) : string :=
  DecimalString.NilZero.string_of_uint (Nat.to_uint i).

(** [fmt.Errorf("controller[%d]: %w", i, err)]: an error of a type of the
    [fmt] package, whose message is the formatted string. *)
Definition controllerError (i : nat) (err : error) : error :=
  Some (foreignError "*fmt.wrapError"
          ("controller[" ++ fmt_d i ++ "]: " ++
           interceptor.fmt_v_error err)%string).

(** [for i, controller := range controllers { ... }], from index [i] on. *)
Fixpoint RegisterRouters_range (i : nat) (controllers : list ICoreController)
    (ctx : Context) : Traced any W CallRecord error :=
  match controllers with
  | [] => tret None
  | controller :: rest =>
      tbind (RegisterRouter controller ctx) (fun err =>
        match err with
        | Some _ => tret (controllerError i err)
        | None => RegisterRouters_range (S i) rest ctx
        end)
  end.

Definition RegisterRouters (controllers : list ICoreController) (ctx : Context)
    : Traced any W CallRecord error :=
  let ctx := match ctx with None => Background | Some _ => ctx end in
  RegisterRouters_range 0 controllers ctx.
End Dynamic.

End adaptertemplate.

(* ===================================================================== *)
(** ** Vocabulary of the specification                                    *)
(* ===================================================================== *)

(** What the specification says about interceptors and handlers ("invokes
    its next-function exactly once", "returns without invoking next",
    "records its name on entry and exit"), as predicates on the embedded
    values. *)
Module ChainSpec.
Import Go interceptor.

(** Entries of the shared call log of section 8. *)
Inductive Mark : Type :=
| Enter (k : nat)
| HandlerRan
| Exit (k : nat).

Definition Mark_eq_dec (a b : Mark) : {a = b} + {a <> b}.
Proof. decide equality; apply Nat.eq_dec. Defined.

(** The log of one full traversal of [n] interceptors and the handler. *)
Definition fullLog (n : nat) : list Mark :=
  map Enter (seq 0 n) ++ [HandlerRan] ++ map Exit (rev (seq 0 n)).

(** The log when the interceptor at position [k] does not call next. *)
Definition shortLog (k : nat) : list Mark :=
  map Enter (seq 0 (S k)) ++ map Exit (rev (seq 0 k)).

Section Logged.
Context {M any U : Type}.

(** The world: the shared call log, and everything else. *)
Definition World : Type := (list Mark * U)%type.

Local Notation Ptr := (UniversalContextPtr M).
Local Notation NextFunc := (interceptor.NextFunc M any World).
Local Notation Interceptor := (interceptor.Interceptor M any World).

(** Pre-next logic: from the context and the state at entry, the context
    handed to next and the new state. *)
Definition Pre : Type := Ptr -> U -> Ptr * U.

(** Post-next logic: sees the context and state at entry and what next
    returned; yields what the interceptor returns. *)
Definition Post : Type := Ptr -> U -> any * error -> U -> (any * error) * U.

(** A body that does not call next (a terminal handler, or an
    interceptor that short-circuits). *)
Definition Body : Type := Ptr -> U -> (any * error) * U.

(** [i], at position [k], records its entry, runs [pre], invokes next
    exactly once, runs [post] and records its exit. *)
Definition callsNextOnce (k : nat) (i : Interceptor) (pre : Pre) (post : Post)
    : Prop :=
  exists impl, i = Some impl /\
    forall ctx next log u,
      Intercept impl ctx next (log, u) =
      let (ctx', u1) := pre ctx u in
      match call next ctx' (log ++ [Enter k], u1) with
      | Returned r (log', u2) =>
          let (r', u3) := post ctx u r u2 in
          Returned r' (log' ++ [Exit k], u3)
      | Panicked p w => Panicked p w
      end.

(** [i], at position [k], records its entry and returns what [body]
    computes, whatever next is. *)
Definition returnsWithoutNext (k : nat) (i : Interceptor) (body : Body)
    : Prop :=
  exists impl, i = Some impl /\
    forall ctx next log u,
      Intercept impl ctx next (log, u) =
      let (r, u') := body ctx u in Returned r (log ++ [Enter k], u').

(** The terminal handler records that it ran and returns what [body]
    computes. *)
Definition handlerRecords (h : NextFunc) (body : Body) : Prop :=
  exists f, h = Some f /\
    forall ctx log u,
      f ctx (log, u) =
      let (r, u') := body ctx u in Returned r (log ++ [HandlerRan], u').

(** [inner] appends [marks] to the log and returns what [body] computes. *)
Definition behavesAs (inner : NextFunc) (marks : list Mark) (body : Body)
    : Prop :=
  forall ctx log u,
    call inner ctx (log, u) =
    let (r, u') := body ctx u in Returned r (log ++ marks, u').

(** The interceptors and the handler of the package's tests: they write
    their marks themselves. *)
Definition recording (k : nat) (pre : Pre) (post : Post)
    : InterceptorImpl M any World :=
  {| Intercept := fun ctx next '(log, u) =>
       let (ctx', u1) := pre ctx u in
       match call next ctx' (log ++ [Enter k], u1) with
       | Returned r (log', u2) =>
           let (r', u3) := post ctx u r u2 in
           Returned r' (log' ++ [Exit k], u3)
       | Panicked p w => Panicked p w
       end |}.

Definition shortCircuiting (k : nat) (body : Body)
    : InterceptorImpl M any World :=
  {| Intercept := fun ctx _ '(log, u) =>
       let (r, u') := body ctx u in Returned r (log ++ [Enter k], u') |}.

Definition recordingHandler (body : Body) : NextFunc :=
  Some (fun ctx '(log, u) =>
          let (r, u') := body ctx u in Returned r (log ++ [HandlerRan], u')).

(** What a stack of pre/post pairs around [inner] computes: the pre
    logic outermost first, [inner], the post logic innermost first. *)
Fixpoint around (layers : list (Pre * Post)) (inner : Body) (ctx : Ptr)
    (u : U) : (any * error) * U :=
  match layers with
  | [] => inner ctx u
  | (pre, post) :: rest =>
      let (ctx', u1) := pre ctx u in
      let (r, u2) := around rest inner ctx' u1 in
      post ctx u r u2
  end.
End Logged.

Section Plain.
Context {M any W : Type}.

Local Notation Ptr := (UniversalContextPtr M).
Local Notation NextFunc := (interceptor.NextFunc M any W).
Local Notation Interceptor := (interceptor.Interceptor M any W).

(** The nest of closures the loop is meant to build: the first
    interceptor outermost, the handler innermost. *)
Definition nest (handler : NextFunc) (interceptors : list Interceptor)
    : NextFunc :=
  fold_right closure handler interceptors.

(** [i] runs some logic of its own, invokes next exactly once, runs some
    more logic and returns [g] of what next returned. *)
Definition mapsResult (g : any * error -> any * error) (i : Interceptor)
    : Prop :=
  exists impl (pre : Ptr -> W -> Ptr * W) (post : Ptr -> W -> any * error -> W -> W),
    i = Some impl /\
    forall ctx next w,
      Intercept impl ctx next w =
      let (ctx', w1) := pre ctx w in
      match call next ctx' w1 with
      | Returned r w2 => Returned (g r) (post ctx w r w2)
      | Panicked p w2 => Panicked p w2
      end.

(** [i] returns the pair of its next call unchanged. *)
Definition passesThrough (i : Interceptor) : Prop := mapsResult (fun r => r) i.

(** Every call of [h] returns the pair [r]. *)
Definition alwaysReturns (h : NextFunc) (r : any * error) : Prop :=
  forall ctx w, exists w', call h ctx w = Returned r w'.

(** Every call of [h] panics with [p]. *)
Definition alwaysPanics (h : NextFunc) (p : PanicValue any) : Prop :=
  forall ctx w, exists w', call h ctx w = Panicked p w'.

(** [i] invokes next exactly once and does not recover from its panic. *)
Definition callsNext (i : Interceptor) : Prop := exists g, mapsResult g i.
End Plain.

End ChainSpec.

(** Repeated wrapping with [NewInterceptorError], as a stack of
    interceptors does on the way out. *)
Module ErrorSpec.
Import Go interceptor.

(** [NewInterceptorError(n1, NewInterceptorError(n2, ... err))] *)
Definition wrapAll (names : list string) (err : error) : error :=
  fold_right NewInterceptorError err names.

(** The prefixes the wrappers put before the message of the cause. *)
Definition prefixes (names : list string) : string :=
  fold_right (fun n rest => "interceptor[" ++ n ++ "]: " ++ rest)%string
             ""%string names.

End ErrorSpec.

(** What the specification says about the bridge helper. *)
Module BridgeSpec.
Import Go interceptor.

Section Hooks.
Context {M any W NativeCtx : Type}.

Local Notation Bridge := (interceptor.Bridge M any W NativeCtx).

(** The hook the specification names for a pipeline that returned
    [(result, err)]: [OnError] with the error when it is not nil,
    [OnSuccess] with the result otherwise. *)
Definition hookFor (nativeCtx : NativeCtx) (result : any) (err : error)
    : HookCall any NativeCtx :=
  match err with
  | Some _ => CallOnError nativeCtx err
  | None => CallOnSuccess nativeCtx result
  end.

(** Running that hook on the bridge. *)
Definition runHook (bridge : Bridge) (nativeCtx : NativeCtx) (result : any)
    (err : error) : Comp any W unit :=
  match err with
  | Some _ => callOnError bridge nativeCtx err
  | None => callOnSuccess bridge nativeCtx result
  end.
End Hooks.

End BridgeSpec.

(** What the specification says about the registry: every exported
    method of the right signature is called, in order, up to the first
    one that panics. *)
Module RegistrySpec.
Import Go adaptertemplate.

Section Sweep.
Context {any W : Type}.
Variable fmt_v : PanicValue any -> string.

Definition valid (m : @Method any W) : bool :=
  isValidDynamicMethod (Type_ m).

(** Call the valid methods of [ms] in order; stop at the first panic
    and return its error. *)
Fixpoint sweep (typeString : string) (ctx : Context)
    (ms : list (@Method any W)) : Traced any W CallRecord error :=
  match ms with
  | [] => tret None
  | m :: rest =>
      if valid m then
        fun w =>
          match Func m ctx w with
          | Returned _ w' =>
              let (t, o) := sweep typeString ctx rest w' in
              ({| callee := Name m; panicked := false |} :: t, o)
          | Panicked p w' =>
              ([{| callee := Name m; panicked := true |}],
               Returned (panicError fmt_v typeString (Name m) p) w')
          end
      else sweep typeString ctx rest
  end.

(** The methods a batch of controllers offers to the registry, in order;
    a nil controller offers none. *)
Definition offered (controllers : list (@ICoreController any W))
    : list string :=
  flat_map (fun c =>
              match c with
              | Some value => map Name (filter valid (reflectMethods value))
              | None => []
              end) controllers.

(** The calls made, against the error returned: no call panicked when
    the error is nil; otherwise the last call, and only it, panicked. *)
Definition failFast (calls : list CallRecord) (err : error) : Prop :=
  match err with
  | None => Forall (fun c => panicked c = false) calls
  | Some _ =>
      exists before last,
        calls = before ++ [last] /\
        Forall (fun c => panicked c = false) before /\
        panicked last = true
  end.
End Sweep.

End RegistrySpec.

(* ===================================================================== *)
(** ** The scenarios of the package's tests                               *)
(* ===================================================================== *)

Module Scenarios.
Import Go interceptor adaptertemplate ChainSpec.

(** Metadata is a user id, results are strings, and besides the call log
    the world holds a counter. *)
Definition Ptr : Type := UniversalContextPtr string.
Definition W : Type := @World nat.

Definition testCtx : Ptr :=
  NewUniversalContext None "test" "method" "user123".

Definition keep : @Pre string nat := fun ctx u => (ctx, u).

Definition tick : @Pre string nat := fun ctx u => (ctx, S u).

Definition same : @Post string string nat := fun _ _ r u => (r, u).

(** [result.(string) + suffix] on success, [(nil, err)] otherwise; the nil
    result is the empty string here. *)
Definition suffixed (suffix : string) (r : string * error) : string * error :=
  match r with
  | (x, None) => ((x ++ suffix)%string, None)
  | (_, Some e) => (""%string, Some e)
  end.

Definition modify (suffix : string) : @Post string string nat :=
  fun _ _ r u => (suffixed suffix r, u).

Definition original : @Body string string nat :=
  fun _ u => (("original"%string, None), u).

Definition expectedErr : error := Some (errorString "interceptor error").

Definition failing : @Body string string nat :=
  fun _ u => ((""%string, expectedErr), u).

(** TestChain_MultipleInterceptors, with three recording interceptors. *)
Definition threeInterceptors : list (Interceptor string string W) :=
  [Some (recording 0 tick same);
   Some (recording 1 keep (modify "-b"));
   Some (recording 2 tick (modify "-c"))].

Definition threeLayers : list (@Pre string nat * @Post string string nat) :=
  [(tick, same); (keep, modify "-b"); (tick, modify "-c")].

(** TestChain_FailFast: the second interceptor returns an error without
    calling next. *)
Definition failFastInterceptors : list (Interceptor string string W) :=
  [Some (recording 0 tick same);
   Some (shortCircuiting 1 failing);
   Some (recording 2 tick same)].

(** Interceptors over a plain world (a counter), as in
    TestChain_ModifyResult. *)
Definition modifier (suffix : string) : InterceptorImpl string string nat :=
  {| Intercept := fun ctx next w =>
       match call next ctx (S w) with
       | Returned r w' => Returned (suffixed suffix r) w'
       | Panicked p w' => Panicked p w'
       end |}.

Definition passer : InterceptorImpl string string nat :=
  {| Intercept := fun ctx next w =>
       match call next ctx w with
       | Returned r w' => Returned r (S w')
       | Panicked p w' => Panicked p w'
       end |}.

Definition plainHandler (r : string) (e : error) : NextFunc string string nat :=
  Some (fun _ w => Returned (r, e) w).

(** bridge_test.go: a bridge whose hooks count in the world, a static
    resolver. *)
Definition testBridge : BaseBridge string string nat string :=
  {| BaseBridge_Protocol := "http";
     ExtractMetaFn := Some (fun nc w => Returned nc w);
     GetMethodFn := None;
     OnSuccessFn := Some (fun _ _ w => Returned tt (w + 10));
     OnErrorFn := Some (fun _ _ w => Returned tt (w + 100)) |}.

Definition testResolver : SimpleResolver string string nat :=
  {| Interceptors := [Some passer] |}.

(** dynamic_controller_test.go: [testController], with the methods of its
    method set in name order. The world counts the calls;
    [CreateUser] panics when asked to. *)
Definition ctxFunc : FuncType := {| params := [contextContext]; results := [] |}.

Definition fmt_v (r : PanicValue string) : string :=
  match r with
  | RuntimeError msg => ("runtime error: " ++ msg)%string
  | PanicWith v => v
  end.

Definition testController (shouldPanic : bool) : @Controller string nat :=
  {| TypeString := "*adaptertemplate.testController";
     methodSet :=
       [ {| Name := "CreateUser"; PkgPath := ""; Type_ := ctxFunc;
            Func := fun _ w =>
              if shouldPanic
              then Panicked (PanicWith "intentional panic for testing") (S w)
              else Returned tt (S w) |};
         {| Name := "GetUsers"; PkgPath := ""; Type_ := ctxFunc;
            Func := fun _ w => Returned tt (S w) |};
         {| Name := "InvalidMethod"; PkgPath := "";
            Type_ := {| params := []; results := [] |};
            Func := fun _ w => Returned tt (w + 1000) |};
         {| Name := "InvalidMethodMultiParams"; PkgPath := "";
            Type_ := {| params := [contextContext; namedType "string"];
                        results := [] |};
            Func := fun _ w => Returned tt (w + 1000) |};
         {| Name := "InvalidMethodWithReturn"; PkgPath := "";
            Type_ := {| params := [contextContext];
                        results := [namedType "string"] |};
            Func := fun _ w => Returned tt (w + 1000) |};
         {| Name := "privateMethod";
            PkgPath := "github.com/phongthien99/monorepo-lib/libs/core/adapter-template";
            Type_ := ctxFunc;
            Func := fun _ w => Returned tt (w + 1000) |} ] |}.

(** A controller whose second exported method does not start with an
    ASCII letter; it is exported all the same, and it panics. *)
Definition unicodeController : @Controller string nat :=
  {| TypeString := "*examples.UnicodeController";
     methodSet :=
       [ {| Name := "Alpha"; PkgPath := ""; Type_ := ctxFunc;
            Func := fun _ w => Returned tt (S w) |};
         {| Name := "Ärger"; PkgPath := ""; Type_ := ctxFunc;
            Func := fun _ w => Panicked (PanicWith "trouble") (S w) |} ] |}.


(** A [testController] without the methods the registry skips. *)
Definition slimController : @Controller string nat :=
  {| TypeString := "*adaptertemplate.testController";
     methodSet :=
       [ {| Name := "CreateUser"; PkgPath := ""; Type_ := ctxFunc;
            Func := fun _ w => Returned tt (S w) |};
         {| Name := "GetUsers"; PkgPath := ""; Type_ := ctxFunc;
            Func := fun _ w => Returned tt (S w) |} ] |}.

(** TestRegisterRouters_WithErrors, with a nil controller added: the
    third entry panics, the fourth is never registered. *)
Definition testBatch : list (@ICoreController string nat) :=
  [Some (testController false); None;
   Some (testController true); Some (testController false)].

(** A bridge that sets no hook, as in TestExecutePipeline_NoInterceptors. *)
Definition bareBridge : BaseBridge string string nat string :=
  {| BaseBridge_Protocol := "http";
     ExtractMetaFn := Some (fun nc w => Returned nc w);
     GetMethodFn := None;
     OnSuccessFn := None;
     OnErrorFn := None |}.

(** Build a pipeline and call it once on [testCtx]. *)
Definition invoke {W' : Type} (built : Built (NextFunc string string W'))
    (w : W') : option (Outcome string W' (string * error)) :=
  match built with
  | Done pipeline => Some (call pipeline testCtx w)
  | IndexOutOfRange _ _ => None
  end.

End Scenarios.

(* ===================================================================== *)
(** ** Properties of the chain builder                                    *)
(* ===================================================================== *)

Module ChainProofs.
Import Go interceptor ChainSpec.

Section Builder.
Context {M any W : Type}.

Local Notation Ptr := (UniversalContextPtr M).
Local Notation NextFunc := (interceptor.NextFunc M any W).
Local Notation Interceptor := (interceptor.Interceptor M any W).

Lemma firstn_snoc (l : list Interceptor) (n : nat) (c : Interceptor) :
  nth_error l n = Some c -> firstn (S n) l = firstn n l ++ [c].
Proof.
  revert n; induction l as [|x l IH]; intros [|n] E; simpl in *;
    try discriminate.
  - now inversion E.
  - now rewrite (IH _ E).
Qed.

Lemma Chain_loop_prefix (interceptors : list Interceptor) (n : nat) :
  n <= List.length interceptors ->
  forall handler,
    Chain_loop interceptors (Z.of_nat n - 1) handler =
    Done (nest handler (firstn n interceptors)).
Proof.
  induction n as [|n IH]; intros Hn handler.
  - simp Chain_loop. simpl. reflexivity.
  - assert (Hi : (Z.of_nat (S n) - 1 = Z.of_nat n)%Z) by lia.
    rewrite Hi.
    destruct (nth_error interceptors n) as [c|] eqn:E.
    + rewrite (firstn_snoc _ _ E).
      simp Chain_loop.
      destruct (Z_le_dec 0 (Z.of_nat n)) as [Hpos|Hneg]; [|lia].
      simpl. rewrite Nat2Z.id, E. simpl.
      rewrite IH by lia. unfold nest.
      now rewrite fold_right_app.
    + apply nth_error_None in E. lia.
Qed.

Lemma Chain_nest (handler : NextFunc) (interceptors : list Interceptor) :
  Chain handler interceptors = Done (nest handler interceptors).
Proof.
  unfold Chain.
  destruct (Nat.eqb_spec (List.length interceptors) 0) as [E|E].
  - destruct interceptors; [reflexivity | discriminate].
  - rewrite (Chain_loop_prefix interceptors (n := List.length interceptors))
      by lia.
    now rewrite firstn_all.
Qed.

Lemma nest_app (handler : NextFunc) (outer inner : list Interceptor) :
  nest handler (outer ++ inner) = nest (nest handler inner) outer.
Proof. unfold nest. apply fold_right_app. Qed.

(** C3. With no interceptors, [Chain] returns the handler it was given,
    the very same function value and not a wrapper around it; so calling
    the pipeline is calling the handler: same pair, same effects, and
    the same panic when the handler is nil. *)
Theorem Chain_empty_is_handler (handler : NextFunc) :
  Chain handler [] = Done handler /\
  forall ctx w,
    match Chain handler [] with
    | Done pipeline => call pipeline ctx w = call handler ctx w
    | IndexOutOfRange _ _ => False
    end.
Proof. split; [reflexivity | intros ctx w; reflexivity]. Qed.

(** C6. For every handler, nil included, and every list of interceptors,
    nil entries included, [Chain] returns a pipeline: its loop ends, no
    index is out of range, and no error is produced. The builder reads
    and writes no state: it is a function of its two arguments alone,
    and calls neither the handler nor any interceptor. *)
Theorem Chain_total (handler : NextFunc) (interceptors : list Interceptor) :
  exists pipeline : NextFunc,
    Chain handler interceptors = Done pipeline /\
    pipeline = fold_right closure handler interceptors.
Proof. eexists; split; [apply Chain_nest | reflexivity]. Qed.

Lemma closure_mapsResult (g : any * error -> any * error)
    (i : Interceptor) (next : NextFunc) (r : any * error) :
  mapsResult g i -> alwaysReturns next r ->
  alwaysReturns (closure i next) (g r).
Proof.
  intros (impl & pre & post & -> & Hi) Hnext ctx w.
  simpl. rewrite Hi.
  destruct (pre ctx w) as [ctx' w1].
  destruct (Hnext ctx' w1) as [w2 ->].
  eexists; reflexivity.
Qed.

Lemma nest_passesThrough (handler : NextFunc) (r : any * error)
    (interceptors : list Interceptor) :
  alwaysReturns handler r ->
  Forall passesThrough interceptors ->
  alwaysReturns (nest handler interceptors) r.
Proof.
  intros Hh Hall.
  induction Hall as [|i rest Hi _ IH]; simpl; [exact Hh|].
  exact (closure_mapsResult Hi IH).
Qed.

(** C4. When the terminal handler returns the pair [(r, e)] and every
    interceptor hands back the pair of its next call unchanged, the
    pipeline built by [Chain] returns [(r, e)]: the same result and the
    same error, whatever other logic the interceptors run around the
    call. The builder adds nothing and drops nothing. *)
Theorem Chain_propagates_unchanged (handler : NextFunc)
    (interceptors : list Interceptor) (r : any) (e : error) :
  alwaysReturns handler (r, e) ->
  Forall passesThrough interceptors ->
  exists pipeline,
    Chain handler interceptors = Done pipeline /\
    alwaysReturns pipeline (r, e).
Proof.
  intros Hh Hall. exists (nest handler interceptors). split.
  - apply Chain_nest.
  - now apply nest_passesThrough.
Qed.

(** C5. When the handler returns [r] with a nil error and [T0], [T1]
    each invoke next once and return [f0], resp. [f1], of a successful
    result, [Chain(H, T0, T1)] returns [f0 (f1 r)] with a nil error: the
    inner transformation first, the outer one last. *)
Theorem Chain_transforms_innermost_first (handler : NextFunc)
    (T0 T1 : Interceptor) (g0 g1 : any * error -> any * error)
    (f0 f1 : any -> any) (r : any) :
  alwaysReturns handler (r, None) ->
  mapsResult g0 T0 -> (forall x, g0 (x, None) = (f0 x, None)) ->
  mapsResult g1 T1 -> (forall x, g1 (x, None) = (f1 x, None)) ->
  exists pipeline,
    Chain handler [T0; T1] = Done pipeline /\
    alwaysReturns pipeline (f0 (f1 r), None).
Proof.
  intros Hh H0 E0 H1 E1. exists (nest handler [T0; T1]). split.
  - apply Chain_nest.
  - simpl. rewrite <- E0, <- E1.
    apply closure_mapsResult; [assumption|].
    now apply closure_mapsResult.
Qed.

End Builder.

Section Logged.
Context {M any U : Type}.

Local Notation W := (@World U).
Local Notation Ptr := (UniversalContextPtr M).
Local Notation NextFunc := (interceptor.NextFunc M any W).
Local Notation Interceptor := (interceptor.Interceptor M any W).
Local Notation Pre := (@ChainSpec.Pre M U).
Local Notation Post := (@ChainSpec.Post M any U).
Local Notation Body := (@ChainSpec.Body M any U).

Lemma nest_layers (interceptors : list Interceptor) :
  forall (layers : list (Pre * Post)) (j : nat) (inner : NextFunc)
         (marks : list Mark) (body : Body),
    List.length layers = List.length interceptors ->
    (forall k i pre post,
        nth_error interceptors k = Some i ->
        nth_error layers k = Some (pre, post) ->
        callsNextOnce (j + k) i pre post) ->
    behavesAs inner marks body ->
    behavesAs (nest inner interceptors)
      (map Enter (seq j (List.length interceptors)) ++ marks ++
       map Exit (rev (seq j (List.length interceptors))))
      (around layers body).
Proof.
  induction interceptors as [|i rest IH];
    intros [|[pre post] layers] j inner marks body Hlen Hall Hin;
    try discriminate.
  - intros ctx log u. simpl. rewrite app_nil_r. apply Hin.
  - assert (Hrest : behavesAs (nest inner rest)
              (map Enter (seq (S j) (List.length rest)) ++ marks ++
               map Exit (rev (seq (S j) (List.length rest))))
              (around layers body)).
    { apply IH; [simpl in Hlen; lia | | exact Hin].
      intros k i' pre' post' Hk Hl.
      replace (S j + k) with (j + S k) by lia.
      now apply Hall. }
    destruct (Hall 0 i pre post eq_refl eq_refl) as (impl & -> & Hi).
    rewrite Nat.add_0_r in Hi.
    intros ctx log u. simpl. rewrite Hi.
    destruct (pre ctx u) as [ctx' u1].
    rewrite Hrest.
    destruct (around layers body ctx' u1) as [r u2].
    destruct (post ctx u r u2) as [r' u3].
    f_equal. f_equal.
    rewrite map_app. simpl.
    now rewrite <- !app_assoc.
Qed.

Lemma count_map_seq (f : nat -> Mark) (n k : nat) :
  (forall a b, f a = f b -> a = b) ->
  count_occ Mark_eq_dec (map f (seq 0 n)) (f k) = if Nat.ltb k n then 1 else 0.
Proof.
  intros Hinj. induction n as [|n IH].
  - reflexivity.
  - rewrite seq_S, map_app, count_occ_app, IH. simpl.
    destruct (Mark_eq_dec (f n) (f k)) as [E|E].
    + apply Hinj in E. subst n.
      rewrite Nat.ltb_irrefl.
      now replace (Nat.ltb k (S k)) with true by (symmetry; apply Nat.ltb_lt; lia).
    + destruct (Nat.ltb_spec k n), (Nat.ltb_spec k (S n)); try lia.
      exfalso. apply E. f_equal. lia.
Qed.

Lemma count_other (f : nat -> Mark) (l : list nat) (m : Mark) :
  (forall a, f a <> m) -> count_occ Mark_eq_dec (map f l) m = 0.
Proof.
  intros Hne. apply count_occ_not_In. intros Hin.
  apply in_map_iff in Hin. destruct Hin as (a & E & _). now apply (Hne a).
Qed.

Lemma fullLog_once (n : nat) :
  count_occ Mark_eq_dec (fullLog n) HandlerRan = 1 /\
  forall k, k < n ->
    count_occ Mark_eq_dec (fullLog n) (Enter k) = 1 /\
    count_occ Mark_eq_dec (fullLog n) (Exit k) = 1.
Proof.
  unfold fullLog. split; [|intros k Hk; split];
    rewrite !count_occ_app, map_rev, count_occ_rev.
  - rewrite !count_other by discriminate. reflexivity.
  - rewrite (count_map_seq Enter) by (intros a b E; now inversion E).
    rewrite count_other by discriminate.
    apply Nat.ltb_lt in Hk. rewrite Hk. reflexivity.
  - rewrite (count_map_seq Exit) by (intros a b E; now inversion E).
    rewrite count_other by discriminate.
    apply Nat.ltb_lt in Hk. rewrite Hk. reflexivity.
Qed.

(** C1. Let every interceptor, at its position [k], record [Enter k],
    run its pre-next logic, invoke next exactly once, run its post-next
    logic and record [Exit k], and let the handler record that it ran.
    Then one call of [Chain(H, I0, ..., I(n-1))] appends to the log
    [Enter 0, ..., Enter (n-1), HandlerRan, Exit (n-1), ..., Exit 0]
    and nothing else, and returns what the pre logic, the handler and
    the post logic compute in that order; every mark of an interceptor
    and the mark of the handler occur exactly once. *)
Theorem Chain_runs_in_declared_order (handler : NextFunc) (body : Body)
    (interceptors : list Interceptor) (layers : list (Pre * Post)) :
  interceptors <> [] ->
  List.length layers = List.length interceptors ->
  handlerRecords handler body ->
  (forall k i pre post,
      nth_error interceptors k = Some i ->
      nth_error layers k = Some (pre, post) ->
      callsNextOnce k i pre post) ->
  exists pipeline,
    Chain handler interceptors = Done pipeline /\
    (forall ctx log u,
        call pipeline ctx (log, u) =
        let (r, u') := around layers body ctx u in
        Returned r (log ++ fullLog (List.length interceptors), u')) /\
    count_occ Mark_eq_dec (fullLog (List.length interceptors)) HandlerRan = 1 /\
    (forall k, k < List.length interceptors ->
        count_occ Mark_eq_dec (fullLog (List.length interceptors)) (Enter k) = 1 /\
        count_occ Mark_eq_dec (fullLog (List.length interceptors)) (Exit k) = 1).
Proof.
  intros _ Hlen (f & -> & Hf) Hall.
  exists (nest (Some f) interceptors).
  split; [apply Chain_nest|]. split; [|apply fullLog_once].
  apply (@nest_layers interceptors layers 0 (Some f) [HandlerRan] body Hlen Hall).
  intros ctx log u. simpl. apply Hf.
Qed.

(** C2. Let the interceptor at position [k] return a pair without
    invoking next, and let those before it behave as in C1. Then,
    whatever the handler and the interceptors after position [k] are,
    one call of the pipeline appends [Enter 0, ..., Enter k,
    Exit (k-1), ..., Exit 0] to the log and nothing else, and returns
    the pair of the interceptor at [k] as passed through the post-next
    logic of positions [k-1] down to [0]: neither the handler nor a later
    interceptor leaves a mark, changes the state or changes the pair. *)
Theorem Chain_short_circuit (handler : NextFunc)
    (interceptors : list Interceptor) (layers : list (Pre * Post))
    (k : nat) (ik : Interceptor) (body : Body) :
  List.length layers = k ->
  nth_error interceptors k = Some ik ->
  returnsWithoutNext k ik body ->
  (forall j i pre post,
      nth_error interceptors j = Some i ->
      nth_error layers j = Some (pre, post) ->
      callsNextOnce j i pre post) ->
  exists pipeline,
    Chain handler interceptors = Done pipeline /\
    forall ctx log u,
      call pipeline ctx (log, u) =
      let (r, u') := around layers body ctx u in
      Returned r (log ++ shortLog k, u').
Proof.
  intros Hlen Hk (impl & -> & Hik) Hall.
  exists (nest handler interceptors).
  split; [apply Chain_nest|].
  assert (Hk' : k < List.length interceptors)
    by (apply nth_error_Some; congruence).
  destruct (nth_error_split interceptors k Hk)
    as (before & after & -> & Hbefore).
  rewrite nest_app. simpl.
  assert (Hinner : behavesAs (closure (Some impl) (nest handler after))
                     [Enter k] body).
  { intros ctx log u. simpl. apply Hik. }
  assert (Hlayers : List.length layers = List.length before) by congruence.
  pose proof (@nest_layers before layers 0
                (closure (Some impl) (nest handler after)) [Enter k] body
                Hlayers) as Hnest.
  intros ctx log u. rewrite Hnest; [| |exact Hinner].
  - destruct (around layers body ctx u) as [r u'].
    unfold shortLog. rewrite seq_S, map_app, Hbefore. simpl.
    now rewrite <- !app_assoc.
  - intros j i pre post Hj Hl. simpl. apply Hall; [|exact Hl].
    rewrite nth_error_app1; [exact Hj|].
    apply nth_error_Some. congruence.
Qed.

End Logged.
End ChainProofs.

(* ===================================================================== *)
(** ** Properties of the context, the error wrapper and the bridge        *)
(* ===================================================================== *)

Module PackageProofs.
Import Go interceptor.



Section Generic.
Context {M any W : Type}.

(** C10. [NewUniversalContext] returns a non-nil pointer to a context
    whose protocol, method and metadata are the arguments and whose
    embedded [context.Context] is never nil: [context.Background()]
    when the argument is nil, the argument itself otherwise. *)
Theorem NewUniversalContext_fields (ctx : Context) (protocol method : string)
    (meta : M) :
  exists u : UniversalContext M,
    NewUniversalContext ctx protocol method meta = Some u /\
    Protocol u = protocol /\
    Method u = method /\
    Meta u = meta /\
    Context_ u <> None /\
    Context_ u = match ctx with
                 | None => Background
                 | Some c => Some c
                 end.
Proof.
  eexists. split; [reflexivity|]. simpl.
  repeat split; destruct ctx; try reflexivity; discriminate.
Qed.


Section Bridging.
Context {NativeCtx : Type}.

Local Notation Bridge := (interceptor.Bridge M any W NativeCtx).
Local Notation Resolver := (interceptor.InterceptorResolver M any W).

(** C9. Whenever the bridge yields a context, the resolver yields the
    interceptors and the pipeline built from them returns the pair
    [(result, err)], the hook calls [ExecutePipeline] makes are exactly
    one: [OnError] with [err] when [err] is not nil, [OnSuccess] with
    [result] otherwise; and once that hook returns, [ExecutePipeline]
    returns [(result, err)] itself. *)
Theorem ExecutePipeline_calls_one_hook (bridge : Bridge)
    (resolver : Resolver) (nativeCtx : NativeCtx) (handlerKey : string)
    (businessHandler : NextFunc M any W)
    (w w1 w2 w3 : W) (uCtx : UniversalContextPtr M)
    (interceptors : list (Interceptor M any W))
    (pipeline : NextFunc M any W) (result : any) (err : error) :
  callCreateUniversalContext bridge nativeCtx w = Returned uCtx w1 ->
  callResolve resolver uCtx handlerKey w1 = Returned interceptors w2 ->
  Chain businessHandler interceptors = Done pipeline ->
  call pipeline uCtx w2 = Returned (result, err) w3 ->
  ExecutePipeline bridge resolver nativeCtx handlerKey businessHandler w =
  ([BridgeSpec.hookFor nativeCtx result err],
   match BridgeSpec.runHook bridge nativeCtx result err w3 with
   | Returned _ w4 => Returned (result, err) w4
   | Panicked p w4 => Panicked p w4
   end).
Proof.
  intros Hctx Hres Hchain Hrun.
  unfold ExecutePipeline, tbind, silent, observed, tret.
  rewrite Hctx, Hres, Hchain, Hrun.
  unfold BridgeSpec.hookFor, BridgeSpec.runHook.
  destruct err as [e|]; simpl.
  - now destruct (callOnError bridge nativeCtx (Some e) w3).
  - now destruct (callOnSuccess bridge nativeCtx result w3).
Qed.
End Bridging.
End Generic.

End PackageProofs.

(* ===================================================================== *)
(** ** Properties of the controller registry                              *)
(* ===================================================================== *)

Module RegistryProofs.
Import Go adaptertemplate RegistrySpec.

Lemma isValidDynamicMethod_iff (t : FuncType) :
  isValidDynamicMethod t = true <->
  params t = [contextContext] /\ results t = [].
Proof.
  destruct t as [ps rs].
  unfold isValidDynamicMethod, NumIn, NumOut, In_. simpl.
  destruct (Z.eqb_spec (Z.of_nat (List.length ps)) 1) as [E1|E1]; simpl.
  2: { split; [discriminate | intros [-> _]; simpl in E1; lia]. }
  destruct (Z.eqb_spec (Z.of_nat (List.length rs)) 0) as [E0|E0]; simpl.
  2: { split; [discriminate | intros [_ ->]; simpl in E0; lia]. }
  destruct ps as [|p [|q ps]]; simpl in E1; try lia.
  destruct rs; simpl in E0; try lia.
  destruct p; simpl; split; try discriminate; auto.
  intros [H _]. discriminate H.
Qed.

Section Dynamic.
Context {any W : Type}.
Variable fmt_v : PanicValue any -> string.

Local Notation Method := (@adaptertemplate.Method any W).
Local Notation Controller := (@adaptertemplate.Controller any W).

Lemma skipn_nth (ms : list Method) (n : nat) (m : Method) :
  nth_error ms n = Some m -> skipn n ms = m :: skipn (S n) ms.
Proof.
  revert n; induction ms as [|x ms IH]; intros [|n] E; simpl in *;
    try discriminate.
  - now inversion E.
  - now apply IH.
Qed.

Lemma RegisterRouter_loop_sweep (value : Controller) (ctx : Context) :
  forall d n,
    d = List.length (reflectMethods value) - n ->
    n <= List.length (reflectMethods value) ->
    forall w,
      RegisterRouter_loop fmt_v value ctx (Z.of_nat n) w =
      sweep fmt_v (TypeString value) ctx (skipn n (reflectMethods value)) w.
Proof.
  induction d as [|d IH]; intros n Hd Hn w.
  - assert (n = List.length (reflectMethods value)) by lia. subst n.
    rewrite skipn_all. simp RegisterRouter_loop.
    destruct (Z_lt_dec _ _) as [Hlt|Hge]; [unfold NumMethod in Hlt; lia|].
    reflexivity.
  - destruct (nth_error (reflectMethods value) n) as [m|] eqn:E.
    2: { apply nth_error_None in E. lia. }
    rewrite (skipn_nth _ _ E).
    assert (Hm : reflectMethod value (Z.of_nat n) = Some m).
    { unfold reflectMethod.
      destruct (Z.ltb_spec (Z.of_nat n) 0) as [Hneg|_]; [lia|].
      now rewrite Nat2Z.id. }
    assert (Hnext : forall w',
               RegisterRouter_loop fmt_v value ctx (Z.of_nat n + 1) w' =
               sweep fmt_v (TypeString value) ctx
                 (skipn (S n) (reflectMethods value)) w').
    { intros w'. replace (Z.of_nat n + 1)%Z with (Z.of_nat (S n)) by lia.
      apply IH; lia. }
    remember (skipn (S n) (reflectMethods value)) as rest eqn:Hrest.
    simp RegisterRouter_loop.
    destruct (Z_lt_dec _ _) as [Hlt|Hge]; [|unfold NumMethod in Hge; lia].
    simpl. rewrite Hm. simpl. unfold valid.
    destruct (isValidDynamicMethod (Type_ m)); simpl.
    + unfold tbind, observed, recovering, tret, recordCall.
      destruct (Func m ctx w) as [[] w'|p w']; simpl.
      * rewrite Hnext. now destruct (sweep _ _ _ rest w').
      * reflexivity.
    + apply Hnext.
Qed.

Lemma sweep_fail_fast (typeString : string) (ctx : Context)
    (ms : list Method) :
  forall w, exists calls err w',
    sweep fmt_v typeString ctx ms w = (calls, Returned err w') /\
    (exists rest,
        map callee calls ++ rest = map Name (filter valid ms) /\
        (err = None -> rest = [])) /\
    failFast calls err.
Proof.
  induction ms as [|m ms IH]; intros w; simpl.
  - exists [], None, w. repeat split.
    + now exists [].
    + constructor.
  - destruct (valid m) eqn:Hv.
    + destruct (Func m ctx w) as [[] w1|p w1].
      * destruct (IH w1) as (calls & err & w' & -> & (rest & Hpre & Hall) & Hff).
        exists ({| callee := Name m; panicked := false |} :: calls), err, w'.
        repeat split.
        -- exists rest. split; [simpl; now rewrite Hpre | exact Hall].
        -- destruct err as [e|]; simpl in *.
           ++ destruct Hff as (before & last & -> & Hb & Hl).
              exists ({| callee := Name m; panicked := false |} :: before), last.
              repeat split; [|exact Hl]. now constructor.
           ++ now constructor.
      * exists [{| callee := Name m; panicked := true |}],
          (panicError fmt_v typeString (Name m) p), w1.
        repeat split.
        -- exists (map Name (filter valid ms)). split; [reflexivity|].
           discriminate.
        -- simpl. exists [], {| callee := Name m; panicked := true |}.
           repeat split. constructor.
    + apply IH.
Qed.

Lemma failFast_iff (calls : list CallRecord) (err : error) :
  failFast calls err ->
  (err <> None <-> Exists (fun c => panicked c = true) calls).
Proof.
  destruct err as [e|]; simpl.
  - intros (before & last & -> & _ & Hl). split; [intros _|discriminate].
    apply Exists_app. right. now constructor.
  - intros Hall. split; [congruence|].
    intros Hex. apply Exists_exists in Hex. destruct Hex as (c & Hin & Hc).
    rewrite Forall_forall in Hall. specialize (Hall c Hin). congruence.
Qed.

(** C8. On a non-nil controller [RegisterRouter] never panics. It calls
    the exported methods whose type is exactly [func(context.Context)]
    (one parameter, of type [context.Context], and no result), in the
    order [reflect] lists them, and no other method. It returns a
    non-nil error exactly when a call panicked; that call is then the
    last one made, so no later method is called, and when the error is
    nil every matching method has been called. *)
Theorem RegisterRouter_fail_fast (controller : Controller) (ctx : Context)
    (w : W) :
  exists calls err w',
    RegisterRouter fmt_v (Some controller) ctx w = (calls, Returned err w') /\
    RegisterRouter fmt_v (Some controller) ctx w =
      sweep fmt_v (TypeString controller)
        (match ctx with None => Background | Some _ => ctx end)
        (reflectMethods controller) w /\
    (forall m : Method,
        valid m = true <->
        params (Type_ m) = [contextContext] /\ results (Type_ m) = []) /\
    (forall m : Method,
        In m (reflectMethods controller) <->
        In m (methodSet controller) /\ IsExported m = true) /\
    (exists rest,
        map callee calls ++ rest =
          map Name (filter valid (reflectMethods controller)) /\
        (err = None -> rest = [])) /\
    (err <> None <-> Exists (fun c => panicked c = true) calls) /\
    failFast calls err.
Proof.
  set (ctx' := match ctx with None => Background | Some _ => ctx end).
  assert (Hloop : RegisterRouter fmt_v (Some controller) ctx w =
                  sweep fmt_v (TypeString controller) ctx'
                    (reflectMethods controller) w).
  { unfold RegisterRouter. fold ctx'.
    apply (RegisterRouter_loop_sweep controller ctx'
             (d := List.length (reflectMethods controller)) (n := 0)); lia. }
  destruct (sweep_fail_fast (TypeString controller) ctx'
              (reflectMethods controller) w)
    as (calls & err & w' & Hs & Hpre & Hff).
  exists calls, err, w'.
  split; [now rewrite Hloop|]. split; [exact Hloop|].
  split; [intros m; apply isValidDynamicMethod_iff|].
  split; [intros m; unfold reflectMethods; apply filter_In|].
  split; [exact Hpre|]. split; [now apply failFast_iff | exact Hff].
Qed.

End Dynamic.

End RegistryProofs.

(* ===================================================================== *)
(** ** The theorems at the scenarios of the tests                         *)
(* ===================================================================== *)

Module ScenarioProofs.
Import Go interceptor adaptertemplate ChainSpec Scenarios.

Lemma recording_callsNextOnce {M any U : Type} (k : nat)
    (pre : @Pre M U) (post : @Post M any U) :
  callsNextOnce k (Some (recording k pre post)) pre post.
Proof. eexists. split; [reflexivity|]. intros ctx next log u. reflexivity. Qed.

Lemma shortCircuiting_returnsWithoutNext {M any U : Type} (k : nat)
    (body : @Body M any U) :
  returnsWithoutNext k (Some (shortCircuiting k body)) body.
Proof. eexists. split; [reflexivity|]. intros ctx next log u. reflexivity. Qed.

Lemma recordingHandler_records {M any U : Type} (body : @Body M any U) :
  handlerRecords (recordingHandler body) body.
Proof. eexists. split; [reflexivity|]. intros ctx log u. reflexivity. Qed.

Lemma modifier_mapsResult (suffix : string) :
  mapsResult (suffixed suffix) (Some (modifier suffix)).
Proof.
  exists (modifier suffix), (fun ctx w => (ctx, S w)), (fun _ _ _ w2 => w2).
  split; [reflexivity|]. intros ctx next w. reflexivity.
Qed.

Lemma passer_passesThrough : passesThrough (Some passer).
Proof.
  exists passer, (fun ctx w => (ctx, w)), (fun _ _ _ w2 => S w2).
  split; [reflexivity|]. intros ctx next w. reflexivity.
Qed.

Lemma plainHandler_alwaysReturns (r : string) (e : error) :
  alwaysReturns (plainHandler r e) (r, e).
Proof. intros ctx w. exists w. reflexivity. Qed.

(** The tests of the two packages, run on the embedding. *)
Example test_Chain_EmptyInterceptors :
  invoke (Chain (plainHandler "result" None) []) 0 =
  Some (Returned ("result", None) 0).
Proof. reflexivity. Qed.

Example test_Chain_MultipleInterceptors :
  invoke (Chain (recordingHandler original) threeInterceptors) ([], 0) =
  Some (Returned ("original-c-b", None)
          ([Enter 0; Enter 1; Enter 2; HandlerRan; Exit 2; Exit 1; Exit 0], 2)).
Proof. reflexivity. Qed.

Example test_Chain_FailFast :
  invoke (Chain (recordingHandler original) failFastInterceptors) ([], 0) =
  Some (Returned ("", expectedErr) ([Enter 0; Enter 1; Exit 0], 1)).
Proof. reflexivity. Qed.

Example test_Chain_ModifyResult :
  invoke (Chain (plainHandler "original" None)
            [Some (modifier "-modified-1"); Some (modifier "-modified-2")]) 0 =
  Some (Returned ("original-modified-2-modified-1", None) 2).
Proof. reflexivity. Qed.

(** A nil handler is accepted by the builder; the pipeline panics when the
    innermost interceptor calls it. *)
Example nil_handler_panics_when_called :
  invoke (Chain None threeInterceptors) ([], 0) =
  Some (Panicked nilDereference ([Enter 0; Enter 1; Enter 2], 2)).
Proof. reflexivity. Qed.

Example test_InterceptorError_Error :
  Error {| InterceptorName := "AuthInterceptor";
           Err := Some (errorString "original error") |} =
  "interceptor[AuthInterceptor]: original error".
Proof. reflexivity. Qed.

Example test_NewInterceptorError_WithNilError :
  NewInterceptorError "TestInterceptor" None = None.
Proof. reflexivity. Qed.

Example test_InterceptorError_ChainedErrors :
  errors_Is
    (NewInterceptorError "Interceptor3"
       (NewInterceptorError "Interceptor2"
          (NewInterceptorError "Interceptor1" (Some (errorString "base error")))))
    (Some (errorString "base error")) = true.
Proof. reflexivity. Qed.

Example test_NewUniversalContext_NilContext :
  option_map (@Context_ string) testCtx = Some Background.
Proof. reflexivity. Qed.

Example test_ExecutePipeline_Error :
  ExecutePipeline (BaseBridge_asBridge "" testBridge)
    (SimpleResolver_asResolver testResolver) "nc" "/api/users"
    (plainHandler "" expectedErr) 0 =
  ([CallOnError "nc" expectedErr], Returned ("", expectedErr) 101).
Proof. reflexivity. Qed.

Example test_RegisterRouter :
  RegisterRouter fmt_v (Some (testController false)) None 0 =
  ([ {| callee := "CreateUser"; panicked := false |};
     {| callee := "GetUsers"; panicked := false |} ],
   Returned None 2).
Proof. reflexivity. Qed.

Example test_RegisterRouter_Panic :
  RegisterRouter fmt_v (Some (testController true)) None 0 =
  ([ {| callee := "CreateUser"; panicked := true |} ],
   Returned
     (Some (errorString
        "method *adaptertemplate.testController.CreateUser panicked: intentional panic for testing"))
     1).
Proof. reflexivity. Qed.

Example test_RegisterRouter_NilController :
  RegisterRouter fmt_v (W := nat) None None 0 = ([], Returned None 0).
Proof. reflexivity. Qed.

(** TestChain_MultipleInterceptors *)
Lemma Chain_runs_in_declared_order_witness :
  exists pipeline,
    Chain (recordingHandler original) threeInterceptors = Done pipeline /\
    call pipeline testCtx ([], 0) =
    Returned ("original-c-b", None)
      ([Enter 0; Enter 1; Enter 2; HandlerRan; Exit 2; Exit 1; Exit 0], 2).
Proof.
  destruct (@ChainProofs.Chain_runs_in_declared_order string string nat
              (recordingHandler original) original
              threeInterceptors threeLayers)
    as (pipeline & Hchain & Hrun & _).
  - discriminate.
  - reflexivity.
  - apply recordingHandler_records.
  - intros [|[|[|k]]] i pre post Hi Hl; simpl in Hi, Hl;
      try (destruct k; discriminate); inversion Hi; inversion Hl; subst;
      apply recording_callsNextOnce.
  - exists pipeline. split; [exact Hchain|]. rewrite Hrun. reflexivity.
Defined.

(** TestChain_FailFast, with a nil handler behind the failing interceptor. *)
Lemma Chain_short_circuit_witness :
  exists pipeline,
    Chain None failFastInterceptors = Done pipeline /\
    call pipeline testCtx ([], 0) =
    Returned ("", expectedErr) ([Enter 0; Enter 1; Exit 0], 1).
Proof.
  destruct (@ChainProofs.Chain_short_circuit string string nat
              None failFastInterceptors [(tick, same)] 1
              (Some (shortCircuiting 1 failing)) failing)
    as (pipeline & Hchain & Hrun).
  - reflexivity.
  - reflexivity.
  - apply shortCircuiting_returnsWithoutNext.
  - intros [|j] i pre post Hi Hl; simpl in Hi, Hl;
      try (destruct j; discriminate); inversion Hi; inversion Hl; subst;
      apply recording_callsNextOnce.
  - exists pipeline. split; [exact Hchain|]. rewrite Hrun. reflexivity.
Defined.

Lemma Chain_propagates_unchanged_witness :
  exists pipeline,
    Chain (plainHandler "result" expectedErr) [Some passer; Some passer] =
      Done pipeline /\
    alwaysReturns pipeline ("result", expectedErr).
Proof.
  apply ChainProofs.Chain_propagates_unchanged.
  - apply plainHandler_alwaysReturns.
  - repeat constructor; apply passer_passesThrough.
Defined.

(** TestChain_ModifyResult *)
Lemma Chain_transforms_innermost_first_witness :
  exists pipeline,
    Chain (plainHandler "original" None)
      [Some (modifier "-modified-1"); Some (modifier "-modified-2")] =
      Done pipeline /\
    alwaysReturns pipeline ("original-modified-2-modified-1", None).
Proof.
  apply (@ChainProofs.Chain_transforms_innermost_first string string nat
           (plainHandler "original" None)
           (Some (modifier "-modified-1")) (Some (modifier "-modified-2"))
           (suffixed "-modified-1") (suffixed "-modified-2")
           (fun x => x ++ "-modified-1")%string
           (fun x => x ++ "-modified-2")%string "original").
  - apply plainHandler_alwaysReturns.
  - apply modifier_mapsResult.
  - reflexivity.
  - apply modifier_mapsResult.
  - reflexivity.
Defined.



Example test_RegisterRouter_unicode_name :
  RegisterRouter fmt_v (Some unicodeController) None 0 =
  ([ {| callee := "Alpha"; panicked := false |};
     {| callee := "Ärger"; panicked := true |} ],
   Returned
     (Some (errorString
        "method *examples.UnicodeController.Ärger panicked: trouble"))
     2).
Proof. reflexivity. Qed.

(** TestExecutePipeline_Success *)
Lemma ExecutePipeline_calls_one_hook_witness :
  ExecutePipeline (BaseBridge_asBridge "" testBridge)
    (SimpleResolver_asResolver testResolver) "nc" "/api/users"
    (plainHandler "success" None) 0 =
  ([CallOnSuccess "nc" "success"], Returned ("success", None) 11).
Proof.
  apply (@PackageProofs.ExecutePipeline_calls_one_hook string string nat string
           (BaseBridge_asBridge "" testBridge)
           (SimpleResolver_asResolver testResolver) "nc" "/api/users"
           (plainHandler "success" None) 0 0 0 1
           (NewUniversalContext None "http" "" "nc")
           [Some passer]
           (ChainSpec.nest (plainHandler "success" None) [Some passer])
           "success" None);
    reflexivity.
Defined.

End ScenarioProofs.

(* ===================================================================== *)
(** ** Further properties of the chain builder                            *)
(* ===================================================================== *)

Module ChainMore.
Import Go interceptor ChainSpec.

Section Builder.
Context {M any W : Type}.

Local Notation NextFunc := (interceptor.NextFunc M any W).
Local Notation Interceptor := (interceptor.Interceptor M any W).

(** X1. Chains compose: building over [a ++ b] gives the very pipeline
    obtained by first building over [b] and then building over [a] with
    that pipeline as the handler. *)
Theorem Chain_app (handler : NextFunc) (a b : list Interceptor) :
  exists inner pipeline,
    Chain handler b = Done inner /\
    Chain inner a = Done pipeline /\
    Chain handler (a ++ b) = Done pipeline.
Proof.
  exists (nest handler b), (nest (nest handler b) a).
  rewrite !ChainProofs.Chain_nest, ChainProofs.nest_app. auto.
Qed.

(** X2. Calling the pipeline calls the first interceptor, and the next
    function it is handed is the pipeline built from the handler and the
    remaining interceptors: for a single interceptor, the handler itself. *)
Theorem Chain_head_receives_rest (handler : NextFunc) (i : Interceptor)
    (rest : list Interceptor) :
  exists inner pipeline,
    Chain handler rest = Done inner /\
    Chain handler (i :: rest) = Done pipeline /\
    (rest = [] -> inner = handler) /\
    forall ctx w, call pipeline ctx w = callIntercept i ctx inner w.
Proof.
  exists (nest handler rest), (nest handler (i :: rest)).
  rewrite !ChainProofs.Chain_nest. repeat split.
  intros ->. reflexivity.
Qed.

Lemma closure_panics (i : Interceptor) (next : NextFunc) (p : PanicValue any) :
  callsNext i -> alwaysPanics next p -> alwaysPanics (closure i next) p.
Proof.
  intros (g & impl & pre & post & -> & Hi) Hnext ctx w.
  simpl. rewrite Hi.
  destruct (pre ctx w) as [ctx' w1].
  destruct (Hnext ctx' w1) as [w2 ->].
  eexists; reflexivity.
Qed.

Lemma nest_panics (handler : NextFunc) (p : PanicValue any)
    (interceptors : list Interceptor) :
  alwaysPanics handler p ->
  Forall callsNext interceptors ->
  alwaysPanics (nest handler interceptors) p.
Proof.
  intros Hh Hall.
  induction Hall as [|i rest Hi _ IH]; simpl; [exact Hh|].
  exact (closure_panics Hi IH).
Qed.

(** X3. The builder puts no recover around anything: when the handler
    panics with [p] and every interceptor calls next without recovering,
    the pipeline panics with the same [p]. *)
Theorem Chain_propagates_panic (handler : NextFunc) (p : PanicValue any)
    (interceptors : list Interceptor) :
  alwaysPanics handler p ->
  Forall callsNext interceptors ->
  exists pipeline,
    Chain handler interceptors = Done pipeline /\
    alwaysPanics pipeline p.
Proof.
  intros Hh Hall. exists (nest handler interceptors).
  split; [apply ChainProofs.Chain_nest | now apply nest_panics].
Qed.

(** X4. A nil entry in the interceptor list is accepted by the builder
    and found only when the call reaches it: if the interceptors before
    it call next, every call of the pipeline panics with a nil
    dereference, whatever the handler and the interceptors after it. *)
Theorem Chain_nil_interceptor_panics_when_reached (handler : NextFunc)
    (before after : list Interceptor) :
  Forall callsNext before ->
  exists pipeline,
    Chain handler (before ++ None :: after) = Done pipeline /\
    alwaysPanics pipeline nilDereference.
Proof.
  intros Hall. exists (nest handler (before ++ None :: after)).
  split; [apply ChainProofs.Chain_nest|].
  rewrite ChainProofs.nest_app. apply nest_panics; [|exact Hall].
  intros ctx w. exists w. reflexivity.
Qed.

End Builder.
End ChainMore.

(* ===================================================================== *)
(** ** Further properties of the error wrapper                            *)
(* ===================================================================== *)

Module ErrorMore.
Import Go interceptor ErrorSpec.

Lemma wrapAll_some (names : list string) (cause : error_value) :
  exists e, wrapAll names (Some cause) = Some e.
Proof.
  induction names as [|n names [e IH]]; simpl.
  - now exists cause.
  - rewrite IH. eexists; reflexivity.
Qed.

(** X5. Wrapping, any number of times, yields nil exactly when the cause
    is nil: a nil error stays nil and a real error is never lost. *)
Theorem wrapAll_nil_iff (names : list string) (err : error) :
  wrapAll names err = None <-> err = None.
Proof.
  split.
  - destruct err as [cause|]; [|reflexivity].
    destruct (wrapAll_some names cause) as [e ->]. discriminate.
  - intros ->. induction names as [|n names IH]; simpl; [reflexivity|].
    now rewrite IH.
Qed.


Lemma append_assoc (a b c : string) :
  ((a ++ b) ++ c = a ++ (b ++ c))%string.
Proof. induction a as [|x a IH]; simpl; [reflexivity | now rewrite IH]. Qed.

Lemma prefix_assoc (n rest msg : string) :
  (("interceptor[" ++ n ++ "]: " ++ rest) ++ msg =
   "interceptor[" ++ n ++ "]: " ++ (rest ++ msg))%string.
Proof. now rewrite !append_assoc. Qed.

Lemma wrapAll_message (names : list string) (cause : error_value) :
  fmt_v_error (wrapAll names (Some cause)) =
  (prefixes names ++ fmt_v_error_value cause)%string.
Proof.
  induction names as [|m names IH]; [reflexivity|].
  destruct (wrapAll_some names cause) as [e He].
  cbn [wrapAll fold_right prefixes] in *. fold (wrapAll names (Some cause)).
  fold (prefixes names).
  rewrite He in *. cbn [NewInterceptorError addressOf InterceptorName Err
                        fmt_v_error fmt_v_error_value] in *.
  now rewrite IH, prefix_assoc.
Qed.

(** X7. The outermost wrapper of a non-nil cause carries the outermost
    name, unwraps to the rest of the stack, and its [Error()] is the
    prefixes of all wrappers, outermost first, followed by the message of
    the cause. *)
Theorem wrapAll_outermost (n : string) (names : list string) (err : error) :
  err <> None ->
  exists e : InterceptorError,
    asInterceptorError (wrapAll (n :: names) err) = Some e /\
    InterceptorName e = n /\
    Unwrap e = wrapAll names err /\
    Error e = (prefixes (n :: names) ++ fmt_v_error err)%string.
Proof.
  destruct err as [cause|]; [intros _ | intros H; now contradiction H].
  destruct (wrapAll_some names cause) as [e He].
  exists {| InterceptorName := n; Err := wrapAll names (Some cause) |}.
  repeat split.
  - cbn [wrapAll fold_right]. fold (wrapAll names (Some cause)).
    now rewrite He.
  - unfold Error. cbn [InterceptorName Err].
    rewrite wrapAll_message. cbn [prefixes fold_right fmt_v_error].
    fold (prefixes names). now rewrite prefix_assoc.
Qed.

End ErrorMore.

(* ===================================================================== *)
(** ** Further properties of the bridge helper                            *)
(* ===================================================================== *)

Module BridgeMore.
Import Go interceptor ChainSpec.

Section Bridging.
Context {M any W NativeCtx : Type}.

Local Notation Bridge := (interceptor.Bridge M any W NativeCtx).
Local Notation BaseBridge := (interceptor.BaseBridge M any W NativeCtx).
Local Notation Resolver := (interceptor.InterceptorResolver M any W).
Local Notation NextFunc := (interceptor.NextFunc M any W).

(** X8. The context a [BaseBridge] creates always carries
    [context.Background()], whatever the native context is: it passes a
    nil context to [NewUniversalContext]. The protocol is the bridge's,
    the method and the metadata are what the two functions return, and a
    nil function gives the empty method, resp. the zero metadata, without
    touching the world. *)
Theorem BaseBridge_context_is_background (zero : M) (b : BaseBridge)
    (nativeCtx : NativeCtx) (w w1 w2 : W) (meta : M) (method : string) :
  BaseBridge_ExtractMeta zero b nativeCtx w = Returned meta w1 ->
  match GetMethodFn b with
  | Some f => f nativeCtx w1
  | None => Returned ""%string w1
  end = Returned method w2 ->
  exists u,
    BaseBridge_CreateUniversalContext zero b nativeCtx w = Returned (Some u) w2 /\
    Context_ u = Background /\
    Protocol u = BaseBridge_Protocol b /\
    Method u = method /\
    Meta u = meta /\
    (ExtractMetaFn b = None -> meta = zero /\ w1 = w) /\
    (GetMethodFn b = None -> method = ""%string /\ w2 = w1).
Proof.
  intros Hmeta Hmethod.
  exists {| Context_ := Background; Protocol := BaseBridge_Protocol b;
            Method := method; Meta := meta |}.
  split.
  - unfold BaseBridge_CreateUniversalContext, bind. rewrite Hmeta.
    destruct (GetMethodFn b) as [f|]; unfold ret in *.
    + now rewrite Hmethod.
    + now inversion Hmethod.
  - do 4 (split; [reflexivity|]). split; intros E.
    + unfold BaseBridge_ExtractMeta, ret in Hmeta.
      rewrite E in Hmeta. now inversion Hmeta.
    + rewrite E in Hmethod. now inversion Hmethod.
Qed.

(** X9. The hooks of a [BaseBridge] whose two hook functions are nil do
    nothing: [ExecutePipeline] then ends exactly as the call of the
    pipeline ends, with the same pair and the same world, or with the
    same panic. *)
Theorem ExecutePipeline_default_hooks (zero : M) (b : BaseBridge)
    (resolver : Resolver) (nativeCtx : NativeCtx) (handlerKey : string)
    (businessHandler : NextFunc) (w w1 w2 : W)
    (uCtx : UniversalContextPtr M)
    (interceptors : list (Interceptor M any W)) :
  OnSuccessFn b = None ->
  OnErrorFn b = None ->
  BaseBridge_CreateUniversalContext zero b nativeCtx w = Returned uCtx w1 ->
  callResolve resolver uCtx handlerKey w1 = Returned interceptors w2 ->
  exists pipeline,
    Chain businessHandler interceptors = Done pipeline /\
    snd (ExecutePipeline (BaseBridge_asBridge zero b) resolver nativeCtx
           handlerKey businessHandler w) =
    call pipeline uCtx w2.
Proof.
  intros Hs He Hctx Hres.
  exists (nest businessHandler interceptors).
  split; [apply ChainProofs.Chain_nest|].
  unfold ExecutePipeline, tbind, silent, observed, tret.
  simpl. rewrite Hctx, Hres, ChainProofs.Chain_nest.
  destruct (call (nest businessHandler interceptors) uCtx w2)
    as [[result [e|]] w3|p w3]; simpl; try reflexivity.
  - unfold BaseBridge_OnError. rewrite He. reflexivity.
  - unfold BaseBridge_OnSuccess. rewrite Hs. reflexivity.
Qed.

(** X10. When the bridge, the resolver or the pipeline panics,
    [ExecutePipeline] calls no hook and panics with the same value in the
    same world: it recovers from nothing. *)
Theorem ExecutePipeline_panic_calls_no_hook (bridge : Bridge)
    (resolver : Resolver) (nativeCtx : NativeCtx) (handlerKey : string)
    (businessHandler : NextFunc) (w w' : W) (p : PanicValue any) :
  callCreateUniversalContext bridge nativeCtx w = Panicked p w' \/
  (exists uCtx w1,
      callCreateUniversalContext bridge nativeCtx w = Returned uCtx w1 /\
      callResolve resolver uCtx handlerKey w1 = Panicked p w') \/
  (exists uCtx w1 interceptors w2 pipeline,
      callCreateUniversalContext bridge nativeCtx w = Returned uCtx w1 /\
      callResolve resolver uCtx handlerKey w1 = Returned interceptors w2 /\
      Chain businessHandler interceptors = Done pipeline /\
      call pipeline uCtx w2 = Panicked p w') ->
  ExecutePipeline bridge resolver nativeCtx handlerKey businessHandler w =
  ([], Panicked p w').
Proof.
  unfold ExecutePipeline, tbind, silent, observed, tret.
  intros [Hctx | [(uCtx & w1 & Hctx & Hres)
                 | (uCtx & w1 & ics & w2 & pipeline & Hctx & Hres & Hc & Hrun)]].
  - now rewrite Hctx.
  - now rewrite Hctx, Hres.
  - now rewrite Hctx, Hres, Hc, Hrun.
Qed.

End Bridging.
End BridgeMore.

(* ===================================================================== *)
(** ** Further properties of the controller registry                      *)
(* ===================================================================== *)

Module RegistryMore.
Import Go adaptertemplate RegistrySpec.

Section Dynamic.
Context {any W : Type}.
Variable fmt_v : PanicValue any -> string.

Local Notation Method := (@adaptertemplate.Method any W).
Local Notation Controller := (@adaptertemplate.Controller any W).
Local Notation ICoreController := (@adaptertemplate.ICoreController any W).

Lemma RegisterRouter_sweep (controller : Controller) (ctx : Context) (w : W) :
  RegisterRouter fmt_v (Some controller) ctx w =
  sweep fmt_v (TypeString controller)
    (match ctx with None => Background | Some _ => ctx end)
    (reflectMethods controller) w.
Proof.
  unfold RegisterRouter.
  apply (RegistryProofs.RegisterRouter_loop_sweep fmt_v controller _
           (d := List.length (reflectMethods controller)) (n := 0)); lia.
Qed.

Lemma sweep_filter (typeString : string) (ctx : Context) (ms : list Method) :
  forall w,
    sweep fmt_v typeString ctx ms w =
    sweep fmt_v typeString ctx (filter valid ms) w.
Proof.
  induction ms as [|m ms IH]; intros w; simpl; [reflexivity|].
  destruct (valid m) eqn:Hv; simpl; rewrite ?Hv; [|apply IH].
  destruct (Func m ctx w) as [[] w1|p w1]; [|reflexivity].
  now rewrite IH.
Qed.

(** X13. Methods that are not exported or do not have the type
    [func(context.Context)] have no influence on [RegisterRouter]: two
    controllers of the same type name that offer the same matching
    methods give the same calls, the same error and the same world. *)
Theorem RegisterRouter_ignores_other_methods (c1 c2 : Controller)
    (ctx : Context) (w : W) :
  TypeString c1 = TypeString c2 ->
  filter valid (reflectMethods c1) = filter valid (reflectMethods c2) ->
  RegisterRouter fmt_v (Some c1) ctx w = RegisterRouter fmt_v (Some c2) ctx w.
Proof.
  intros Ht Hm. rewrite !RegisterRouter_sweep.
  rewrite (sweep_filter _ _ (reflectMethods c1)).
  rewrite (sweep_filter _ _ (reflectMethods c2)).
  now rewrite Ht, Hm.
Qed.

Lemma sweep_error_names_method (typeString : string) (ctx : Context)
    (ms : list Method) :
  forall w calls e w',
    sweep fmt_v typeString ctx ms w = (calls, Returned (Some e) w') ->
    exists m p before w0,
      In m ms /\ valid m = true /\
      Func m ctx w0 = Panicked p w' /\
      calls = before ++ [{| callee := Name m; panicked := true |}] /\
      Some e = panicError fmt_v typeString (Name m) p.
Proof.
  induction ms as [|m ms IH]; intros w calls e w' H; simpl in H.
  - discriminate.
  - destruct (valid m) eqn:Hv.
    + destruct (Func m ctx w) as [[] w1|p w1] eqn:Hf.
      * destruct (sweep fmt_v typeString ctx ms w1) as [t o] eqn:Hs.
        inversion H; subst.
        destruct (IH _ _ _ _ Hs) as (m' & p & before & w0 & Hin & Hv' & Hp & -> & He).
        exists m', p, ({| callee := Name m; panicked := false |} :: before), w0.
        repeat split; auto. now right.
      * inversion H; subst.
        exists m, p, [], w. repeat split; auto. now left.
    + destruct (IH _ _ _ _ H) as (m' & p & before & w0 & Hin & Hv' & Hp & -> & He).
      exists m', p, before, w0. repeat split; auto. now right.
Qed.

(** X14. The error of [RegisterRouter] names the method that panicked:
    it is the message ["method T.Name panicked: v"] for the type name [T]
    of the controller, an exported method [Name] of the right type that
    was the last one called, and the value [v] that method panicked with;
    the world is left as it was at the panic. *)
Theorem RegisterRouter_error_names_method (controller : Controller)
    (ctx : Context) (w w' : W) (calls : list CallRecord) (e : error_value) :
  RegisterRouter fmt_v (Some controller) ctx w = (calls, Returned (Some e) w') ->
  exists (m : Method) (p : PanicValue any) before w0,
    In m (methodSet controller) /\
    IsExported m = true /\
    isValidDynamicMethod (Type_ m) = true /\
    Func m (match ctx with None => Background | Some _ => ctx end) w0 =
      Panicked p w' /\
    calls = before ++ [{| callee := Name m; panicked := true |}] /\
    e = errorString ("method " ++ TypeString controller ++ "." ++ Name m ++
                     " panicked: " ++ fmt_v p)%string.
Proof.
  rewrite RegisterRouter_sweep. intros H.
  destruct (sweep_error_names_method _ _ _ _ H)
    as (m & p & before & w0 & Hin & Hv & Hp & Hc & He).
  apply filter_In in Hin. destruct Hin as [Hin Hex].
  exists m, p, before, w0. repeat split; auto.
  unfold panicError in He. now inversion He.
Qed.

Lemma RegisterRouter_outcome (c : ICoreController) (ctx : Context) (w : W) :
  exists calls err w',
    RegisterRouter fmt_v c ctx w = (calls, Returned err w') /\
    (exists rest,
        map callee calls ++ rest = offered [c] /\
        (err = None -> rest = [])) /\
    failFast calls err.
Proof.
  destruct c as [value|].
  - rewrite RegisterRouter_sweep.
    destruct (RegistryProofs.sweep_fail_fast fmt_v (TypeString value)
                (match ctx with None => Background | Some _ => ctx end)
                (reflectMethods value) w)
      as (calls & err & w' & -> & (rest & Hpre & Hall) & Hff).
    exists calls, err, w'. repeat split; [|exact Hff].
    exists rest. split; [|exact Hall].
    unfold offered. simpl. now rewrite app_nil_r.
  - exists [], None, w. repeat split; [|constructor].
    now exists [].
Qed.

Lemma failFast_app (calls1 calls2 : list CallRecord) (err : error) :
  Forall (fun c => panicked c = false) calls1 ->
  failFast calls2 err ->
  failFast (calls1 ++ calls2) err.
Proof.
  intros H1. destruct err as [e|]; simpl.
  - intros (before & last & -> & Hb & Hl).
    exists (calls1 ++ before), last. rewrite app_assoc.
    repeat split; [|exact Hl]. apply Forall_app. now split.
  - intros H2. apply Forall_app. now split.
Qed.

Lemma range_outcome (ctx : Context) (controllers : list ICoreController) :
  forall i w, exists calls err w',
    RegisterRouters_range fmt_v i controllers ctx w =
      (calls, Returned err w') /\
    (exists rest,
        map callee calls ++ rest = offered controllers /\
        (err = None -> rest = [])) /\
    failFast calls err.
Proof.
  induction controllers as [|c cs IH]; intros i w.
  - exists [], None, w. repeat split; [|constructor]. now exists [].
  - destruct (RegisterRouter_outcome c ctx w)
      as (calls1 & err1 & w1 & H1 & (rest1 & Hpre1 & Hall1) & Hff1).
    cbn [RegisterRouters_range]. unfold tbind. rewrite H1.
    assert (Hoff : offered (c :: cs) = offered [c] ++ offered cs).
    { unfold offered. simpl. now rewrite app_nil_r. }
    destruct err1 as [e1|].
    + exists (calls1 ++ []), (controllerError i (Some e1)), w1.
      repeat split.
      * exists (rest1 ++ offered cs). split; [|discriminate].
        now rewrite app_nil_r, Hoff, <- Hpre1, app_assoc.
      * rewrite app_nil_r. exact Hff1.
    + destruct (IH (S i) w1)
        as (calls2 & err2 & w2 & H2 & (rest2 & Hpre2 & Hall2) & Hff2).
      rewrite H2. exists (calls1 ++ calls2), err2, w2.
      repeat split.
      * exists rest2. split; [|exact Hall2].
        rewrite Hoff, <- Hpre1, <- Hpre2, (Hall1 eq_refl), app_nil_r.
        now rewrite map_app, app_assoc.
      * apply failFast_app; [exact Hff1 | exact Hff2].
Qed.

(** X11. [RegisterRouters] never panics. The calls it makes are a prefix
    of the matching methods of the controllers, taken in order (a nil
    controller has none), and all of them when it returns nil. It returns
    a non-nil error exactly when a call panicked, and that call is the
    last one made: no later method of that controller and no later
    controller is touched. *)
Theorem RegisterRouters_fail_fast (controllers : list ICoreController)
    (ctx : Context) (w : W) :
  exists calls err w',
    RegisterRouters fmt_v controllers ctx w = (calls, Returned err w') /\
    (exists rest,
        map callee calls ++ rest = offered controllers /\
        (err = None -> rest = [])) /\
    (err <> None <-> Exists (fun c => panicked c = true) calls) /\
    failFast calls err.
Proof.
  unfold RegisterRouters.
  destruct (range_outcome
              (match ctx with None => Background | Some _ => ctx end)
              controllers 0 w)
    as (calls & err & w' & H & Hpre & Hff).
  exists calls, err, w'. repeat split; auto;
    now apply RegistryProofs.failFast_iff.
Qed.

Lemma range_failing_controller (ctx : Context)
    (controllers : list ICoreController) :
  forall j w calls e w',
    RegisterRouters_range fmt_v j controllers ctx w =
      (calls, Returned (Some e) w') ->
    exists i value before wi callsi inner,
      nth_error controllers i = Some (Some value) /\
      RegisterRouters_range fmt_v j (firstn i controllers) ctx w =
        (before, Returned None wi) /\
      RegisterRouter fmt_v (Some value) ctx wi =
        (callsi, Returned (Some inner) w') /\
      calls = before ++ callsi /\
      Some e = controllerError (j + i) (Some inner).
Proof.
  induction controllers as [|c cs IH]; intros j w calls e w' H.
  - discriminate.
  - cbn [RegisterRouters_range] in H. unfold tbind in H.
    destruct (RegisterRouter_outcome c ctx w)
      as (calls1 & err1 & w1 & H1 & _ & _).
    rewrite H1 in H. destruct err1 as [e1|].
    + simpl in H. inversion H; subst.
      destruct c as [value|]; [|discriminate].
      exists 0, value, [], w, calls1, e1.
      rewrite Nat.add_0_r, app_nil_r. repeat split; auto.
    + destruct (RegisterRouters_range fmt_v (S j) cs ctx w1)
        as [calls2 o2] eqn:H2.
      inversion H; subst.
      destruct (IH _ _ _ _ _ H2)
        as (i & value & before & wi & callsi & inner & Hn & Hb & Hr & -> & He).
      exists (S i), value, (calls1 ++ before), wi, callsi, inner.
      repeat split; auto.
      * cbn [firstn RegisterRouters_range]. unfold tbind.
        now rewrite H1, Hb.
      * now rewrite app_assoc.
      * now rewrite Nat.add_succ_r.
Qed.

(** X12. A non-nil error of [RegisterRouters] points at the first
    controller that failed: for its index [i], the controllers before [i]
    were registered completely and without error, the controller at [i]
    is not nil and [RegisterRouter] on it returned the error [inner] in
    the world the earlier ones left, and the error returned has the
    message ["controller[i]: "] followed by the message of [inner]. *)
Theorem RegisterRouters_names_failing_controller
    (controllers : list ICoreController) (ctx : Context) (w w' : W)
    (calls : list CallRecord) (e : error_value) :
  RegisterRouters fmt_v controllers ctx w = (calls, Returned (Some e) w') ->
  exists i value before wi callsi inner,
    nth_error controllers i = Some (Some value) /\
    RegisterRouters fmt_v (firstn i controllers) ctx w =
      (before, Returned None wi) /\
    RegisterRouter fmt_v (Some value) ctx wi =
      (callsi, Returned (Some inner) w') /\
    calls = before ++ callsi /\
    e = foreignError "*fmt.wrapError"
          ("controller[" ++ fmt_d i ++ "]: " ++
           interceptor.fmt_v_error_value inner)%string.
Proof.
  unfold RegisterRouters. intros H.
  destruct (range_failing_controller _ _ _ _ H)
    as (i & value & before & wi & callsi & inner & Hn & Hb & Hr & Hc & He).
  exists i, value, before, wi, callsi, inner. repeat split; auto.
  - rewrite <- Hr. now destruct ctx.
  - unfold controllerError in He. simpl in He. now inversion He.
Qed.

End Dynamic.
End RegistryMore.

(* ===================================================================== *)
(** ** The further properties at the scenarios of the tests               *)
(* ===================================================================== *)

Module ScenarioMore.
Import Go interceptor adaptertemplate ChainSpec ErrorSpec RegistrySpec Scenarios.

(** A method whose name starts with a non-ASCII upper-case letter is
    exported and called: the batch fails at the first controller. *)
Example test_RegisterRouters_unicode_name :
  RegisterRouters fmt_v [Some unicodeController; Some (testController true)]
    None 0 =
  ([ {| callee := "Alpha"; panicked := false |};
     {| callee := "Ärger"; panicked := true |} ],
   Returned
     (Some (foreignError "*fmt.wrapError"
        "controller[0]: method *examples.UnicodeController.Ärger panicked: trouble"))
     2).
Proof. reflexivity. Qed.

Example test_RegisterRouters_WithErrors :
  RegisterRouters fmt_v testBatch None 0 =
  ([ {| callee := "CreateUser"; panicked := false |};
     {| callee := "GetUsers"; panicked := false |};
     {| callee := "CreateUser"; panicked := true |} ],
   Returned
     (Some (foreignError "*fmt.wrapError"
        "controller[2]: method *adaptertemplate.testController.CreateUser panicked: intentional panic for testing"))
     3).
Proof. reflexivity. Qed.

Lemma passer_callsNext : callsNext (Some passer).
Proof. exists (fun r => r). apply ScenarioProofs.passer_passesThrough. Qed.

Lemma modifier_callsNext (suffix : string) : callsNext (Some (modifier suffix)).
Proof. exists (suffixed suffix). apply ScenarioProofs.modifier_mapsResult. Qed.

Lemma nil_handler_alwaysPanics :
  alwaysPanics (None : NextFunc string string nat) nilDereference.
Proof. intros ctx w. exists w. reflexivity. Qed.

(** A nil handler behind two interceptors. *)
Lemma Chain_propagates_panic_witness :
  exists pipeline,
    Chain None [Some passer; Some (modifier "-x")] = Done pipeline /\
    alwaysPanics pipeline (@nilDereference string).
Proof.
  apply ChainMore.Chain_propagates_panic.
  - apply nil_handler_alwaysPanics.
  - repeat constructor; [apply passer_callsNext | apply modifier_callsNext].
Defined.

Lemma Chain_nil_interceptor_panics_when_reached_witness :
  exists pipeline,
    Chain (plainHandler "result" None) ([Some passer] ++ None :: [Some passer]) =
      Done pipeline /\
    alwaysPanics pipeline (@nilDereference string).
Proof.
  apply ChainMore.Chain_nil_interceptor_panics_when_reached.
  repeat constructor. apply passer_callsNext.
Defined.


Lemma wrapAll_outermost_witness :
  exists e : InterceptorError,
    asInterceptorError
      (wrapAll ["Outer"; "Inner"] (Some (errorString "validation failed"))) =
      Some e /\
    InterceptorName e = "Outer" /\
    Unwrap e = wrapAll ["Inner"] (Some (errorString "validation failed")) /\
    Error e = "interceptor[Outer]: interceptor[Inner]: validation failed".
Proof.
  apply (@ErrorMore.wrapAll_outermost "Outer" ["Inner"]
           (Some (errorString "validation failed"))).
  discriminate.
Defined.

(** TestBaseBridge_CreateUniversalContext_NoMethodFn *)
Lemma BaseBridge_context_is_background_witness :
  exists u,
    BaseBridge_CreateUniversalContext "" testBridge "nc" 0 =
      Returned (Some u) 0 /\
    Context_ u = Background /\
    Protocol u = "http" /\
    interceptor.Method u = "" /\
    Meta u = "nc" /\
    (ExtractMetaFn testBridge = None -> "nc" = "" /\ 0 = 0) /\
    (GetMethodFn testBridge = None -> "" = "" /\ 0 = 0).
Proof.
  apply (@BridgeMore.BaseBridge_context_is_background string string nat string
           "" testBridge "nc" 0 0 0 "nc" ""); reflexivity.
Defined.

(** TestExecutePipeline_NoInterceptors, with one interceptor resolved. *)
Lemma ExecutePipeline_default_hooks_witness :
  exists pipeline,
    Chain (plainHandler "direct result" None) [Some passer] = Done pipeline /\
    snd (ExecutePipeline (BaseBridge_asBridge "" bareBridge)
           (SimpleResolver_asResolver testResolver) "nc" "/api/users"
           (plainHandler "direct result" None) 0) =
    call pipeline (NewUniversalContext None "http" "" "nc") 0.
Proof.
  apply (@BridgeMore.ExecutePipeline_default_hooks string string nat string
           "" bareBridge (SimpleResolver_asResolver testResolver)
           "nc" "/api/users" (plainHandler "direct result" None) 0 0 0);
    reflexivity.
Defined.

(** A nil business handler: the pipeline panics, no hook is called. *)
Lemma ExecutePipeline_panic_calls_no_hook_witness :
  ExecutePipeline (BaseBridge_asBridge "" testBridge)
    (SimpleResolver_asResolver testResolver) "nc" "/api/users" None 0 =
  ([], Panicked nilDereference 0).
Proof.
  apply BridgeMore.ExecutePipeline_panic_calls_no_hook.
  right. right.
  exists (NewUniversalContext None "http" "" "nc"), 0, [Some passer], 0,
    (nest None [Some passer]).
  repeat split; reflexivity.
Defined.

Lemma RegisterRouters_names_failing_controller_witness :
  exists i value before wi callsi inner,
    nth_error testBatch i = Some (Some value) /\
    RegisterRouters fmt_v (firstn i testBatch) None 0 =
      (before, Returned None wi) /\
    RegisterRouter fmt_v (Some value) None wi =
      (callsi, Returned (Some inner) 3) /\
    [ {| callee := "CreateUser"; panicked := false |};
      {| callee := "GetUsers"; panicked := false |};
      {| callee := "CreateUser"; panicked := true |} ] = before ++ callsi /\
    foreignError "*fmt.wrapError"
      "controller[2]: method *adaptertemplate.testController.CreateUser panicked: intentional panic for testing" =
    foreignError "*fmt.wrapError"
      ("controller[" ++ fmt_d i ++ "]: " ++
       interceptor.fmt_v_error_value inner)%string.
Proof.
  apply (@RegistryMore.RegisterRouters_names_failing_controller string nat
           fmt_v testBatch None 0 3).
  reflexivity.
Defined.

Lemma RegisterRouter_ignores_other_methods_witness :
  RegisterRouter fmt_v (Some (testController false)) None 0 =
  RegisterRouter fmt_v (Some slimController) None 0.
Proof.
  apply RegistryMore.RegisterRouter_ignores_other_methods; reflexivity.
Defined.

(** TestRegisterRouter_Panic *)
Lemma RegisterRouter_error_names_method_witness :
  exists (m : @adaptertemplate.Method string nat) (p : PanicValue string)
      before w0,
    In m (methodSet (testController true)) /\
    IsExported m = true /\
    isValidDynamicMethod (Type_ m) = true /\
    Func m Background w0 = Panicked p 1 /\
    [ {| callee := "CreateUser"; panicked := true |} ] =
      before ++ [{| callee := Name m; panicked := true |}] /\
    errorString
      "method *adaptertemplate.testController.CreateUser panicked: intentional panic for testing" =
    errorString ("method " ++ TypeString (testController true) ++ "." ++
                 Name m ++ " panicked: " ++ fmt_v p)%string.
Proof.
  apply (@RegistryMore.RegisterRouter_error_names_method string nat fmt_v
           (testController true) None 0 1).
  reflexivity.
Defined.

End ScenarioMore.
